(** * ConVulAgent: the model client's reply parsing and the directory reviewer

    A shallow embedding of [src/deepseek_agent.py] (class [DeepSeekAgent])
    and of [examples/review.py] ([scan_directory], [run_project_review],
    [main]), with the properties their specification states.

    Python text is modelled by [string]; a character is one code point below
    256.  Calls that leave the two files (the HTTP client, the JSON decoder,
    the review pipeline, the file system) are taken as parameters. *)

From Stdlib Require Import String Ascii List ZArith Bool Arith Lia Permutation.
Import ListNotations.
Open Scope string_scope.
Set Warnings "-register-all".

(** ** The [str] methods the two files use *)

Module PyStr.

(** [s.startswith(p)] *)
Fixpoint startswith (p s : string) : bool :=
  match p, s with
  | EmptyString, _ => true
  | String a p', String b s' => Ascii.eqb a b && startswith p' s'
  | String _ _, EmptyString => false
  end.

(** [sub in s] *)
Fixpoint contains (sub s : string) : bool :=
  startswith sub s ||
  match s with
  | EmptyString => false
  | String _ s' => contains sub s'
  end.

(** [s[n:]] *)
Fixpoint drop (n : nat) (s : string) : string :=
  match n, s with
  | O, _ => s
  | S n', String _ s' => drop n' s'
  | S _, EmptyString => EmptyString
  end.

(** [s[:n]] *)
Fixpoint take (n : nat) (s : string) : string :=
  match n, s with
  | S n', String c s' => String c (take n' s')
  | _, _ => EmptyString
  end.

(** [s.partition(sep)] when [sep] occurs in [s]: the text before the
    leftmost occurrence and the text after it. *)
Fixpoint cut (sep s : string) : option (string * string) :=
  if startswith sep s then Some (EmptyString, drop (String.length sep) s)
  else match s with
       | EmptyString => None
       | String c s' =>
           match cut sep s' with
           | Some (a, b) => Some (String c a, b)
           | None => None
           end
       end.

(** [s.split(sep)] for a non-empty [sep]: the pieces between the
    occurrences of [sep], found from the left without overlap.  Each cut
    removes at least one character, so the [length s] allowed cuts are
    never used up. *)
Fixpoint split_fuel (fuel : nat) (sep s : string) : list string :=
  match cut sep s with
  | None => [s]
  | Some (a, b) =>
      match fuel with
      | O => [a; b]
      | S n => a :: split_fuel n sep b
      end
  end.

Definition split (sep s : string) : list string :=
  split_fuel (String.length s) sep s.

(** [c.isspace()] on the code points below 256 *)
Definition isspace (c : ascii) : bool :=
  let n := nat_of_ascii c in
  (((9 <=? n) && (n <=? 13)) || ((28 <=? n) && (n <=? 32))
   || (n =? 133) || (n =? 160))%nat.

Fixpoint lstrip (s : string) : string :=
  match s with
  | EmptyString => EmptyString
  | String c s' => if isspace c then lstrip s' else s
  end.

Fixpoint rstrip (s : string) : string :=
  match s with
  | EmptyString => EmptyString
  | String c s' =>
      match rstrip s' with
      | EmptyString => if isspace c then EmptyString else String c EmptyString
      | r => String c r
      end
  end.

(** [s.strip()] *)
Definition strip (s : string) : string := rstrip (lstrip s).

(** [s.endswith(suffix)] *)
Fixpoint endswith (s suffix : string) : bool :=
  String.eqb s suffix ||
  match s with
  | EmptyString => false
  | String _ s' => endswith s' suffix
  end.

End PyStr.

(** ** Python values, exceptions and the two effects the code has *)

Module Py.

(** What [json.loads], the HTTP client and the configuration hand to the
    code.  A float is kept as its binary64 bit pattern. *)
Inductive pyval : Type :=
| PNone
| PBool (b : bool)
| PInt (n : Z)
| PFloat (bits : Z)
| PStr (s : string)
| PList (l : list pyval)
| PDict (d : list (string * pyval)).

(** The exception classes the two files tell apart.  [JSONDecodeError]
    stands for [json.JSONDecodeError] and its subclasses;
    [ExceptionSubclass] for any other class under [Exception];
    [KeyboardInterrupt], [SystemExit] and [GeneratorExit] derive from
    [BaseException] only. *)
Inductive exn_class : Type :=
| JSONDecodeError
| KeyError
| IndexError
| TypeError
| AttributeError
| UnboundLocalError
| ExceptionSubclass (name : string)
| KeyboardInterrupt
| SystemExit (code : Z)
| GeneratorExit.

(** An exception object: its class and [str(e)]. *)
Record exn : Type := mkExn { exn_cls : exn_class; exn_str : string }.

(** [isinstance(e, json.JSONDecodeError)] *)
Definition is_JSONDecodeError (e : exn) : bool :=
  match exn_cls e with JSONDecodeError => true | _ => false end.

(** [isinstance(e, Exception)] *)
Definition is_Exception (e : exn) : bool :=
  match exn_cls e with
  | KeyboardInterrupt | SystemExit _ | GeneratorExit => false
  | _ => true
  end.

(** [isinstance(e, KeyboardInterrupt)] *)
Definition is_KeyboardInterrupt (e : exn) : bool :=
  match exn_cls e with KeyboardInterrupt => true | _ => false end.

(** A computation returns or raises. *)
Inductive result (A : Type) : Type :=
| Ok (a : A)
| Raise (e : exn).
Arguments Ok {A} a.
Arguments Raise {A} e.

Definition bind {A B : Type} (m : result A) (k : A -> result B) : result B :=
  match m with
  | Ok a => k a
  | Raise e => Raise e
  end.

(** The console: the lines printed so far, oldest first. *)
Definition console : Type := list string.

(** A computation that may also print. *)
Definition M (A : Type) : Type := console -> result A * console.

Definition ret {A : Type} (a : A) : M A := fun out => (Ok a, out).
Definition raise {A : Type} (e : exn) : M A := fun out => (Raise e, out).
Definition lift {A : Type} (r : result A) : M A := fun out => (r, out).
Definition print (line : string) : M unit := fun out => (Ok tt, (out ++ [line])%list).

Definition mbind {A B : Type} (m : M A) (k : A -> M B) : M B :=
  fun out =>
    match m out with
    | (Ok a, out') => k a out'
    | (Raise e, out') => (Raise e, out')
    end.

(** [type(v).__name__] *)
Definition type_name (v : pyval) : string :=
  match v with
  | PNone => "NoneType"
  | PBool _ => "bool"
  | PInt _ => "int"
  | PFloat _ => "float"
  | PStr _ => "str"
  | PList _ => "list"
  | PDict _ => "dict"
  end.

Fixpoint assoc (k : string) (d : list (string * pyval)) : option pyval :=
  match d with
  | [] => None
  | (k', v) :: d' => if String.eqb k k' then Some v else assoc k d'
  end.

(** [v[key]] for a [str] key *)
Definition getitem_key (v : pyval) (key : string) : result pyval :=
  match v with
  | PDict d =>
      match assoc key d with
      | Some x => Ok x
      | None => Raise (mkExn KeyError ("'" ++ key ++ "'"))
      end
  | PStr _ =>
      Raise (mkExn TypeError "string indices must be integers, not 'str'")
  | PList _ =>
      Raise (mkExn TypeError "list indices must be integers or slices, not str")
  | _ =>
      Raise (mkExn TypeError ("'" ++ type_name v ++ "' object is not subscriptable"))
  end.

(** [v[0]] *)
Definition getitem_0 (v : pyval) : result pyval :=
  match v with
  | PList (x :: _) => Ok x
  | PList [] => Raise (mkExn IndexError "list index out of range")
  | PStr (String c _) => Ok (PStr (String c EmptyString))
  | PStr EmptyString => Raise (mkExn IndexError "string index out of range")
  | PDict _ => Raise (mkExn KeyError "0")
  | _ =>
      Raise (mkExn TypeError ("'" ++ type_name v ++ "' object is not subscriptable"))
  end.

(** [parts[i]] on the list [str.split] returns *)
Definition index (parts : list string) (i : nat) : result string :=
  match nth_error parts i with
  | Some p => Ok p
  | None => Raise (mkExn IndexError "list index out of range")
  end.

(** [needle in v] *)
Definition py_in (needle : string) (v : pyval) : result bool :=
  match v with
  | PStr s => Ok (PyStr.contains needle s)
  | PList l =>
      Ok (existsb (fun x => match x with
                            | PStr t => String.eqb needle t
                            | _ => false
                            end) l)
  | PDict d => Ok (existsb (fun kv => String.eqb needle (fst kv)) d)
  | _ =>
      Raise (mkExn TypeError
               ("argument of type '" ++ type_name v ++ "' is not iterable"))
  end.

(** [v.split(sep)] *)
Definition py_split (v : pyval) (sep : string) : result (list string) :=
  match v with
  | PStr s => Ok (PyStr.split sep s)
  | _ =>
      Raise (mkExn AttributeError
               ("'" ++ type_name v ++ "' object has no attribute 'split'"))
  end.

(** [v[:n]] *)
Definition slice_to (n : nat) (v : pyval) : result pyval :=
  match v with
  | PStr s => Ok (PStr (PyStr.take n s))
  | PList l => Ok (PList (firstn n l))
  | _ =>
      Raise (mkExn TypeError ("'" ++ type_name v ++ "' object is not subscriptable"))
  end.

(** [d.get(key, default)] *)
Definition py_get (v : pyval) (key : string) (default : pyval) : result pyval :=
  match v with
  | PDict d =>
      match assoc key d with
      | Some x => Ok x
      | None => Ok default
      end
  | _ =>
      Raise (mkExn AttributeError
               ("'" ++ type_name v ++ "' object has no attribute 'get'"))
  end.

End Py.

Declare Scope py_scope.
Delimit Scope py_scope with py.
Notation "x <- m ;; k" := (Py.bind m (fun x => k))
  (at level 61, m at next level, right associativity) : py_scope.
Notation "x <~ m ;; k" := (Py.mbind m (fun x => k))
  (at level 61, m at next level, right associativity) : py_scope.
Notation "m ;;; k" := (Py.mbind m (fun _ => k))
  (at level 61, right associativity) : py_scope.

(** ** [src/deepseek_agent.py] *)

Module Agent.
Import Py.
Local Open Scope py_scope.

(** The object [requests.post] returns, as far as [query_openai] uses it. *)
Record http_response : Type := mkResponse {
  raise_for_status : result unit;
  json : result pyval
}.

(** What the module imports: [json.loads] on a [str], [requests.post],
    [ollama.chat], [str.format] with keyword arguments, and the text the
    interpreter prints for a value that is not a [str]. *)
Class Runtime : Type := {
  json_loads : string -> result pyval;
  requests_post : string -> pyval -> pyval -> result http_response;
  ollama_chat : pyval -> pyval -> pyval -> result pyval;
  str_format : string -> list (string * pyval) -> result string;
  py_repr : pyval -> string
}.

(** The attributes [__init__] sets. *)
Record DeepSeekAgent : Type := mkAgent {
  use_openai : bool;
  openai_base_url : pyval;
  openai_api_key : pyval;
  ollama_base_url : pyval;
  model_name : pyval;
  temperature : pyval;
  max_tokens : pyval
}.

Definition fence_json : string := "```json".
Definition fence : string := "```".

Section Methods.
Context {R : Runtime}.

(** [str(v)], as an f-string formats a value *)
Definition py_str (v : pyval) : string :=
  match v with
  | PStr s => s
  | _ => py_repr v
  end.

(** [json.loads(v)] *)
Definition json_loads_val (v : pyval) : result pyval :=
  match v with
  | PStr s => json_loads s
  | _ =>
      Raise (mkExn TypeError
               ("the JSON object must be str, bytes or bytearray, not "
                  ++ type_name v))
  end.

Definition query_openai (self : DeepSeekAgent) (prompt : string) : result pyval :=
  let headers :=
    PDict [("Authorization", PStr ("Bearer " ++ py_str (openai_api_key self)));
           ("Content-Type", PStr "application/json")] in
  let payload :=
    PDict [("model", PStr "gpt-4");
           ("messages",
             PList [PDict [("role", PStr "user"); ("content", PStr prompt)]]);
           ("temperature", temperature self);
           ("max_tokens", max_tokens self)] in
  response <- requests_post (py_str (openai_base_url self) ++ "/chat/completions")
                headers payload ;;
  _ <- raise_for_status response ;;
  json response.

Definition query_ollama (self : DeepSeekAgent) (prompt : string) : result pyval :=
  ollama_chat (model_name self)
    (PList [PDict [("role", PStr "user"); ("content", PStr prompt)]])
    (PDict [("temperature", temperature self); ("num_predict", max_tokens self)]).

(** The call [query] makes to the selected backend (lines 81-86, the
    right-hand sides of [response = ...]). *)
Definition query_backend (self : DeepSeekAgent) (prompt : string) : result pyval :=
  if use_openai self then query_openai self prompt else query_ollama self prompt.

(** Lines 81-86: the reply's content. *)
Definition fetch_content (self : DeepSeekAgent) (prompt : string) : result pyval :=
  if use_openai self then
    response <- query_openai self prompt ;;
    choices <- getitem_key response "choices" ;;
    choice <- getitem_0 choices ;;
    message <- getitem_key choice "message" ;;
    getitem_key message "content"
  else
    response <- query_ollama self prompt ;;
    message <- getitem_key response "message" ;;
    getitem_key message "content".

(** [content.split(marker)[1].split('```')[0].strip()] *)
Definition fenced_block (content : pyval) (marker : string) : result pyval :=
  parts <- py_split content marker ;;
  block <- index parts 1 ;;
  inner <- index (PyStr.split fence block) 0 ;;
  Ok (PStr (PyStr.strip inner)).

(** Lines 90-93: the new value of [content]. *)
Definition extract (content : pyval) : result pyval :=
  tagged <- py_in fence_json content ;;
  if (tagged : bool) then fenced_block content fence_json
  else
    fenced <- py_in fence content ;;
    if (fenced : bool) then fenced_block content fence
    else Ok content.

(** The [try] suite (lines 81-97): what it returns or raises, and the value
    the local variable [content] holds when the suite is left ([None] when it
    was never assigned). *)
Definition try_suite (self : DeepSeekAgent) (prompt : string) (parse_json : bool)
  : result pyval * option pyval :=
  match fetch_content self prompt with
  | Raise e => (Raise e, None)
  | Ok content =>
      if parse_json then
        match extract content with
        | Raise e => (Raise e, Some content)
        | Ok content' => (json_loads_val content', Some content')
        end
      else (Ok (PDict [("response", content)]), Some content)
  end.

(** Lines 99-102 *)
Definition except_JSONDecodeError (e : exn) (content : option pyval) : M pyval :=
  print (" JSON parsing error: " ++ exn_str e) ;;;
  match content with
  | None =>
      raise (mkExn UnboundLocalError
               "cannot access local variable 'content' where it is not associated with a value")
  | Some c =>
      shown <~ lift (slice_to 200 c) ;;
      print ("Raw response: " ++ py_str shown ++ "...") ;;;
      ret (PDict [("error", PStr "json_parse_error"); ("raw_response", c)])
  end.

(** Lines 104-106 *)
Definition except_Exception (e : exn) : M pyval :=
  print (" Error querying model: " ++ exn_str e) ;;;
  ret (PDict [("error", PStr (exn_str e))]).

Definition query (self : DeepSeekAgent) (prompt : string) (parse_json : bool)
  : M pyval :=
  let (r, content) := try_suite self prompt parse_json in
  match r with
  | Ok v => ret v
  | Raise e =>
      if is_JSONDecodeError e then except_JSONDecodeError e content
      else if is_Exception e then except_Exception e
      else raise e
  end.

Definition detect_bugs (self : DeepSeekAgent) (code language prompt_template : string)
  : M pyval :=
  prompt <~ lift (str_format prompt_template
                    [("code", PStr code); ("language", PStr language)]) ;;
  query self prompt true.

Definition suggest_optimizations (self : DeepSeekAgent)
  (code language prompt_template : string) : M pyval :=
  prompt <~ lift (str_format prompt_template
                    [("code", PStr code); ("language", PStr language)]) ;;
  query self prompt true.

Definition generate_summary (self : DeepSeekAgent) (bug_count opt_count : Z)
  (prompt_template : string) : M pyval :=
  prompt <~ lift (str_format prompt_template
                    [("bug_count", PInt bug_count); ("opt_count", PInt opt_count)]) ;;
  result <~ query self prompt false ;;
  lift (py_get result "response" (PStr "No summary generated")).

End Methods.

(** [s.partition(sep)[0]]: the text before the first [sep], all of [s]
    when [sep] does not occur. *)
Definition before (sep s : string) : string :=
  match PyStr.cut sep s with
  | Some (a, _) => a
  | None => s
  end.

(** The text [extract] hands to the decoder when the reply is a [str]. *)
Definition candidate (text : string) : string :=
  match extract (PStr text) with
  | Ok (PStr c) => c
  | _ => text
  end.

(** The candidate as the specification words it: the text after the first
    opening marker up to the next closing marker (to the end when there is
    none), the tagged marker first, or else the whole text; in each case
    trimmed. *)
Definition spec_candidate (text : string) : string :=
  match PyStr.cut fence_json text with
  | Some (_, rest) => PyStr.strip (before fence rest)
  | None =>
      match PyStr.cut fence text with
      | Some (_, rest) => PyStr.strip (before fence rest)
      | None => PyStr.strip text
      end
  end.

(** *** [__init__] *)

(** What [__init__] reads: [os.path.exists] on the configuration path, and
    what [yaml.safe_load] makes of the opened file. *)
Class ConfigFiles : Type := {
  config_exists : string -> bool;
  yaml_load : string -> result pyval
}.

(** [bool(v)] *)
Definition truthy (v : pyval) : bool :=
  match v with
  | PNone => false
  | PBool b => b
  | PInt n => negb (Z.eqb n 0)
  | PFloat bits => negb (Z.eqb bits 0 || Z.eqb bits 9223372036854775808)
  | PStr s => negb (String.eqb s "")
  | PList l => match l with [] => false | _ => true end
  | PDict d => match d with [] => false | _ => true end
  end.

(** The attributes a new agent has.  The two [openai] attributes are
    assigned only when a configuration file is read: [None] is an
    attribute that was never assigned. *)
Record attributes : Type := mkAttributes {
  attr_openai_base_url : option pyval;
  attr_openai_api_key : option pyval;
  attr_use_openai : bool;
  attr_ollama_base_url : pyval;
  attr_model_name : pyval;
  attr_temperature : pyval;
  attr_max_tokens : pyval
}.

Definition default_ollama_base_url : pyval := PStr "http://localhost:11434".

(** Lines 15-40.  The float 0.1 is the binary64 [0x3FB999999999999A]. *)
Definition init {C : ConfigFiles} (config_path : string) : M attributes :=
  if negb (config_exists config_path) then
    print ("Warning: Configuration file '" ++ config_path
             ++ "' not found. Using default settings.") ;;;
    ret (mkAttributes None None false default_ollama_base_url
           (PStr "deepseek-r1:latest") (PFloat 4591870180066957722) (PInt 2048))
  else
    lift (config <- yaml_load config_path ;;
          openai <- py_get config "openai" (PDict []) ;;
          base_url <- py_get openai "base_url" PNone ;;
          openai' <- py_get config "openai" (PDict []) ;;
          api_key <- py_get openai' "api_key" PNone ;;
          ollama <- py_get config "ollama" (PDict []) ;;
          ollama_url <- py_get ollama "base_url" default_ollama_base_url ;;
          model <- getitem_key config "model" ;;
          name <- getitem_key model "name" ;;
          model' <- getitem_key config "model" ;;
          temp <- getitem_key model' "temperature" ;;
          model'' <- getitem_key config "model" ;;
          tokens <- getitem_key model'' "max_tokens" ;;
          Ok (mkAttributes (Some base_url) (Some api_key) (truthy api_key)
                ollama_url name temp tokens)).

(** The agent the methods run on.  An attribute that was never assigned is
    given as [None]; it is one no method reads while [use_openai] is
    [False]. *)
Definition agent_of (a : attributes) : DeepSeekAgent :=
  mkAgent (attr_use_openai a)
    (match attr_openai_base_url a with Some v => v | None => PNone end)
    (match attr_openai_api_key a with Some v => v | None => PNone end)
    (attr_ollama_base_url a) (attr_model_name a)
    (attr_temperature a) (attr_max_tokens a).

(** Lines 83 and 86: the content of a backend's response. *)
Definition content_of (self : DeepSeekAgent) (response : pyval) : result pyval :=
  if use_openai self then
    choices <- getitem_key response "choices" ;;
    choice <- getitem_0 choices ;;
    message <- getitem_key choice "message" ;;
    getitem_key message "content"
  else
    message <- getitem_key response "message" ;;
    getitem_key message "content".

(** The exceptions the last handler of [query] takes: instances of
    [Exception] that are no JSON decode errors. *)
Definition ordinary (e : exn) : bool :=
  is_Exception e && negb (is_JSONDecodeError e).

End Agent.

(** ** A JSON decoder to run the model with

    A decoder for the JSON that has no escapes and no fractions: [null],
    [true], [false], integers, strings, arrays and objects.  It stands in
    for [json.loads] where a property is evaluated on an input; the
    properties themselves hold for every decoder. *)

Module Json.
Import Py.

Definition dquote : ascii := "034"%char.

Definition is_ws (c : ascii) : bool :=
  Ascii.eqb c " " || Ascii.eqb c "009" || Ascii.eqb c "010" || Ascii.eqb c "013".

Fixpoint skip_ws (s : string) : string :=
  match s with
  | String c s' => if is_ws c then skip_ws s' else s
  | EmptyString => s
  end.

Definition is_digit (c : ascii) : bool :=
  ((48 <=? nat_of_ascii c) && (nat_of_ascii c <=? 57))%nat.

Fixpoint digits (acc : Z) (s : string) : Z * string :=
  match s with
  | String c s' =>
      if is_digit c
      then digits (10 * acc + Z.of_nat (nat_of_ascii c - 48)) s'
      else (acc, s)
  | EmptyString => (acc, s)
  end.

(** The characters up to the closing quote. *)
Fixpoint chars (s : string) : option (string * string) :=
  match s with
  | EmptyString => None
  | String c s' =>
      if Ascii.eqb c dquote then Some (EmptyString, s')
      else if Ascii.eqb c "\" then None
      else match chars s' with
           | Some (t, r) => Some (String c t, r)
           | None => None
           end
  end.

(** A later member replaces an earlier one of the same name, in its place. *)
Fixpoint dict_set (k : string) (v : pyval) (d : list (string * pyval))
  : list (string * pyval) :=
  match d with
  | [] => [(k, v)]
  | (k', v') :: d' =>
      if String.eqb k k' then (k, v) :: d' else (k', v') :: dict_set k v d'
  end.

Fixpoint value (fuel : nat) (s : string) : option (pyval * string) :=
  match fuel with
  | O => None
  | S n =>
      match s with
      | EmptyString => None
      | String c s' =>
          if Ascii.eqb c "{" then
            match skip_ws s' with
            | String "}" r => Some (PDict [], r)
            | r => members n r []
            end
          else if Ascii.eqb c "[" then
            match skip_ws s' with
            | String "]" r => Some (PList [], r)
            | r => elements n r []
            end
          else if Ascii.eqb c dquote then
            match chars s' with
            | Some (t, r) => Some (PStr t, r)
            | None => None
            end
          else if Ascii.eqb c "-" then
            match s' with
            | String d _ =>
                if is_digit d
                then let (z, r) := digits 0 s' in Some (PInt (- z), r)
                else None
            | EmptyString => None
            end
          else if is_digit c then
            let (z, r) := digits 0 s in Some (PInt z, r)
          else if PyStr.startswith "null" s then Some (PNone, PyStr.drop 4 s)
          else if PyStr.startswith "true" s then Some (PBool true, PyStr.drop 4 s)
          else if PyStr.startswith "false" s then Some (PBool false, PyStr.drop 5 s)
          else None
      end
  end
with elements (fuel : nat) (s : string) (acc : list pyval)
  : option (pyval * string) :=
  match fuel with
  | O => None
  | S n =>
      match value n s with
      | Some (v, r) =>
          match skip_ws r with
          | String "," r' => elements n (skip_ws r') (acc ++ [v])
          | String "]" r' => Some (PList (acc ++ [v]), r')
          | _ => None
          end
      | None => None
      end
  end
with members (fuel : nat) (s : string) (acc : list (string * pyval))
  : option (pyval * string) :=
  match fuel with
  | O => None
  | S n =>
      match s with
      | String q s' =>
          if Ascii.eqb q dquote then
            match chars s' with
            | Some (k, r) =>
                match skip_ws r with
                | String ":" r' =>
                    match value n (skip_ws r') with
                    | Some (v, r'') =>
                        match skip_ws r'' with
                        | String "," r3 => members n (skip_ws r3) (dict_set k v acc)
                        | String "}" r3 => Some (PDict (dict_set k v acc), r3)
                        | _ => None
                        end
                    | None => None
                    end
                | _ => None
                end
            | None => None
            end
          else None
      | EmptyString => None
      end
  end.

Definition loads (s : string) : result pyval :=
  match value (2 * String.length s + 2) (skip_ws s) with
  | Some (v, r) =>
      match skip_ws r with
      | EmptyString => Ok v
      | _ => Raise (mkExn JSONDecodeError "Extra data")
      end
  | None => Raise (mkExn JSONDecodeError "Expecting value")
  end.

End Json.

(** ** [examples/review.py] *)

Module Review.
Import Py.
Local Open Scope py_scope.

(** A directory entry.  [Special] is a socket, a FIFO or a device: it
    exists, is neither a regular file nor a directory, and [os.walk] lists
    it among the files.  Symbolic links are left out. *)
Inductive node : Type :=
| File (name : string)
| Special (name : string)
| Dir (name : string) (entries : list node).

Definition node_name (n : node) : string :=
  match n with
  | File name | Special name | Dir name _ => name
  end.

(** What the script imports and runs on: the file system ([lookup] gives
    what a path names), the review pipeline of [src.workflow] and
    [src.report_generator], and the order in which the started threads get
    to run ([schedule i] is the choice made at the [i]-th step). *)
Class ReviewEnv : Type := {
  lookup : string -> option node;
  run_review : string -> result pyval;
  print_report_summary : pyval -> M unit;
  save_json_report : pyval -> result string;
  save_markdown_report : pyval -> result string;
  schedule : nat -> nat
}.

(** What [posixpath.join] puts before a relative name: the directory,
    with a separator unless it is empty or ends with one. *)
Definition dir_prefix (top : string) : string :=
  if String.eqb top "" || PyStr.endswith top "/" then top else top ++ "/".

(** [posixpath.join(a, b)] *)
Definition path_join (a b : string) : string :=
  if PyStr.startswith "/" b then b
  else if String.eqb a "" || PyStr.endswith a "/" then a ++ b
  else a ++ "/" ++ b.

Definition dirnames (entries : list node) : list string :=
  flat_map (fun n => match n with Dir d _ => [d] | _ => [] end) entries.

Definition filenames (entries : list node) : list string :=
  flat_map (fun n => match n with
                     | File f | Special f => [f]
                     | Dir _ _ => []
                     end) entries.

(** [os.walk(top)] on the directory [n] found at [top]: the triple of the
    directory itself, then the walks of its subdirectories in turn. *)
Fixpoint walk (top : string) (n : node) : list (string * list string * list string) :=
  match n with
  | Dir _ entries =>
      (top, dirnames entries, filenames entries)
        :: flat_map (fun c => match c with
                              | Dir d _ => walk (path_join top d) c
                              | _ => []
                              end) entries
  | _ => []
  end.

Definition supported_extensions : list string :=
  [".py"; ".js"; ".ts"; ".java"; ".cpp"; ".c"; ".go"; ".rb"; ".php"].

(** The last character of a text. *)
Definition last_char (s : string) : option ascii :=
  (fix go (s : string) (acc : option ascii) : option ascii :=
     match s with
     | EmptyString => acc
     | String c s' => go s' (Some c)
     end) s None.

(** [any(file.endswith(ext) for ext in supported_extensions)] *)
Definition is_code_file (file : string) : bool :=
  existsb (fun ext => PyStr.endswith file ext) supported_extensions.

(** Lines 38-41: the loop over the triples [os.walk] yields. *)
Definition collect (triples : list (string * list string * list string))
  : list string :=
  flat_map (fun '(root, _, files) =>
              map (path_join root) (filter is_code_file files))
           triples.

Section Script.
Context {E : ReviewEnv}.

Definition path_exists (path : string) : bool :=
  match lookup path with Some _ => true | None => false end.

Definition isfile (path : string) : bool :=
  match lookup path with Some (File _) => true | _ => false end.

Definition isdir (path : string) : bool :=
  match lookup path with Some (Dir _ _) => true | _ => false end.

Definition os_walk (directory : string) : list (string * list string * list string) :=
  match lookup directory with
  | Some n => walk directory n
  | None => []
  end.

Definition scan_directory (directory : string) : list string :=
  collect (os_walk directory).

(** The threads of [run_project_review]: the paths whose thread is still
    to be started, the started threads that have not finished, the shared
    list and the console. *)
Record pool : Type := mkPool {
  unstarted : list string;
  running : list string;
  reports : list (string * pyval);
  out : console
}.

(** [review_file], run to its end by a worker.  An exception outside
    [Exception] ends the worker, leaving the list and the console as they
    are. *)
Definition review_file (file_path : string) (p : pool) : pool :=
  match run_review file_path with
  | Ok report =>
      mkPool (unstarted p) (running p)
        (reports p ++ [(file_path, report)]) (out p)
  | Raise e =>
      if is_Exception e then
        mkPool (unstarted p) (running p) (reports p)
          (out p ++ [("Error reviewing " ++ file_path ++ ": " ++ exn_str e)%string])%list
      else p
  end.

Fixpoint remove_nth {A : Type} (k : nat) (l : list A) : list A :=
  match k, l with
  | _, [] => []
  | O, _ :: t => t
  | S k', x :: t => x :: remove_nth k' t
  end.

(** The main thread starts the next thread. *)
Definition start (p : pool) : pool :=
  match unstarted p with
  | [] => p
  | f :: rest => mkPool rest (running p ++ [f]) (reports p) (out p)
  end.

(** The [k]-th running thread finishes. *)
Definition finish (k : nat) (p : pool) : pool :=
  match nth_error (running p) k with
  | None => p
  | Some f =>
      review_file f
        (mkPool (unstarted p) (remove_nth k (running p)) (reports p) (out p))
  end.

(** One step: choice 0 lets the main thread start the next thread, choice
    [k + 1] lets a running thread finish; when only one kind of step is
    possible it is taken. *)
Definition step (choice : nat) (p : pool) : pool :=
  match unstarted p, running p with
  | [], [] => p
  | _ :: _, [] => start p
  | [], _ :: _ => finish (choice mod List.length (running p)) p
  | _ :: _, _ :: _ =>
      match choice with
      | O => start p
      | S k => finish (k mod List.length (running p)) p
      end
  end.

Fixpoint run (steps i : nat) (p : pool) : pool :=
  match steps with
  | O => p
  | S n => run n (S i) (step (schedule i) p)
  end.

(** Every thread is started once and joined once: two steps a file. *)
Definition run_project_review (directory : string) : M (list (string * pyval)) :=
  fun o =>
    let code_files := scan_directory directory in
    let final := run (2 * List.length code_files) 0 (mkPool code_files [] [] o) in
    (Ok (reports final), out final).

(** The entries the workers of [files] add to the list: one for each
    file whose pipeline returns. *)
Definition succeeded (files : list string) : list (string * pyval) :=
  flat_map (fun f => match run_review f with
                     | Ok report => [(f, report)]
                     | Raise _ => []
                     end) files.

(** The pipeline raises on [file_path]. *)
Definition raised (file_path : string) : bool :=
  match run_review file_path with
  | Ok _ => false
  | Raise _ => true
  end.

Definition newline : string := String "010" EmptyString.

(** Lines 90-103, the [try] suite of [main]. *)
Definition review_suite (path : string) : M unit :=
  if isfile path then
    report <~ lift (run_review path) ;;
    print_report_summary report ;;;
    json_path <~ lift (save_json_report report) ;;
    md_path <~ lift (save_markdown_report report) ;;
    print (" Reports saved:" ++ newline ++ "   - JSON: " ++ json_path
             ++ newline ++ "   - Markdown: " ++ md_path)
  else if isdir path then
    reports <~ run_project_review path ;;
    print (newline
             ++ "Project review complete. Reports generated for the following files:") ;;;
    fold_left (fun (m : M unit) (entry : string * pyval) =>
                 m ;;; print (" - " ++ fst entry))
              reports (ret tt)
  else
    print " Invalid path. Please provide a file or directory." ;;;
    raise (mkExn (SystemExit 1) "1").

Definition main (argv : list string) : M unit :=
  match argv with
  | _ :: path :: _ =>
      if negb (path_exists path) then
        print (" Path not found: " ++ path) ;;;
        raise (mkExn (SystemExit 1) "1")
      else
        fun o =>
          match review_suite path o with
          | (Ok tt, o') => (Ok tt, o')
          | (Raise e, o') =>
              if is_KeyboardInterrupt e then
                (print (newline ++ newline ++ "  Review interrupted by user") ;;;
                 raise (mkExn (SystemExit 0) "0")) o'
              else if is_Exception e then
                (print (newline ++ " Error during review: " ++ exn_str e) ;;;
                 raise (mkExn (SystemExit 1) "1")) o'
              else (Raise e, o')
          end
  | _ =>
      print " Usage: python examples/review.py <file_or_directory_path>" ;;;
      print "Example: python examples/review.py test_samples/buggy_code.py" ;;;
      raise (mkExn (SystemExit 1) "1")
  end.

(** The steps the threads of a pool still have to take. *)
Definition steps_left (p : pool) : nat :=
  2 * List.length (unstarted p) + List.length (running p).

(** What holds of a pool for the files [files], where [done] are the
    threads that finished, in the order they did: every file is finished,
    running or still to be started, and the list holds the entries of the
    finished ones. *)
Definition pool_inv (files : list string) (p : pool) (done : list string) : Prop :=
  Permutation files (done ++ running p ++ unstarted p)
  /\ reports p = succeeded done.

End Script.

(** The status the interpreter exits with when [main()] is the last
    statement of the script. *)
Definition exit_status (r : result unit) : Z :=
  match r with
  | Ok _ => 0
  | Raise e =>
      match exn_cls e with
      | SystemExit code => code
      | KeyboardInterrupt => 130
      | _ => 1
      end
  end.

(** The files below a directory, as the spec counts them: the entries of
    the directory that are no directories, and the files below each of its
    subdirectories. *)
Inductive file_under : string -> node -> string -> string -> Prop :=
| under_here : forall top d entries name,
    In name (filenames entries) ->
    file_under top (Dir d entries) (path_join top name) name
| under_sub : forall top d entries sub subentries path name,
    In (Dir sub subentries) entries ->
    file_under (path_join top sub) (Dir sub subentries) path name ->
    file_under top (Dir d entries) path name.

(** induction on a tree, with the property known for every entry of a
    directory *)
Fixpoint node_nested_ind (P : node -> Prop)
  (HF : forall name, P (File name))
  (HS : forall name, P (Special name))
  (HD : forall name entries, Forall P entries -> P (Dir name entries))
  (n : node) : P n :=
  match n with
  | File name => HF name
  | Special name => HS name
  | Dir name entries =>
      HD name entries
        ((fix all (l : list node) : Forall P l :=
            match l with
            | [] => Forall_nil P
            | c :: l' => Forall_cons c (node_nested_ind P HF HS HD c) (all l')
            end) entries)
  end.

(** the paths found in the subdirectory [c] of [top] *)
Definition below (top : string) (c : node) : list string :=
  match c with
  | Dir sub _ => collect (walk (path_join top sub) c)
  | _ => []
  end.

(** A name as a directory lists it: not empty, no separator in it. *)
Definition good_name (name : string) : bool :=
  negb (String.eqb name "") && negb (PyStr.contains "/" name).

Fixpoint nodupb (l : list string) : bool :=
  match l with
  | [] => true
  | x :: l' => negb (existsb (String.eqb x) l') && nodupb l'
  end.

(** The names in a directory are good and differ from each other, all the
    way down. *)
Fixpoint well_formed (n : node) : bool :=
  match n with
  | File name | Special name => good_name name
  | Dir _ entries =>
      forallb (fun c => good_name (node_name c)) entries
      && nodupb (map node_name entries)
      && forallb well_formed entries
  end.

Section Console.
Context {E : ReviewEnv}.

(** The lines the workers of [files] print: one for each file whose
    pipeline raised an instance of [Exception]. *)
Definition error_lines (files : list string) : list string :=
  flat_map (fun f => match run_review f with
                     | Ok _ => []
                     | Raise e =>
                         if is_Exception e
                         then ["Error reviewing " ++ f ++ ": " ++ exn_str e]
                         else []
                     end) files.


End Console.

End Review.

(** ** Inputs to run the model on *)

Module Fixtures.
Import Py Agent.

(** A runtime whose local daemon answers every chat with [reply], that has
    no network, decodes with [Json.loads] and formats a template to itself. *)
Definition scripted_runtime (reply : result pyval) : Runtime := {|
  json_loads := Json.loads;
  requests_post := fun _ _ _ =>
    Raise (mkExn (ExceptionSubclass "ConnectionError") "Connection refused");
  ollama_chat := fun _ _ _ => reply;
  str_format := fun template _ => Ok template;
  py_repr := fun _ => "<object>"
|}.

(** The daemon's answer carrying the text [text]. *)
Definition says (text : string) : result pyval :=
  Ok (PDict [("message", PDict [("role", PStr "assistant"); ("content", PStr text)])]).

(** The agent [__init__] builds when there is no configuration file. *)
Definition default_agent : DeepSeekAgent := {|
  use_openai := false;
  openai_base_url := PNone;
  openai_api_key := PNone;
  ollama_base_url := PStr "http://localhost:11434";
  model_name := PStr "deepseek-r1:latest";
  temperature := PFloat 4591870180066957722;
  max_tokens := PInt 2048
|}.

Fixpoint repeat_char (c : ascii) (n : nat) : string :=
  match n with
  | O => EmptyString
  | S n' => String c (repeat_char c n')
  end.

(** [{"x":1}] *)
Definition x1_text : string :=
  "{" ++ String Json.dquote ("x" ++ String Json.dquote ":1}").

Definition x1_value : pyval := PDict [("x", PInt 1)].

(** 201 characters that are no JSON *)
Definition long_text : string := repeat_char "a" 201.

(** a tagged fence whose closing marker runs into another tag *)
Definition crowded_text : string := "```json 1````json".

(** a number behind a vertical tab, which [str.strip] removes and JSON
    does not allow *)
Definition tabbed_text : string := String "011" "1".

(** a reply with the fenced block [{"x":1}] in the middle *)
Definition chatty_text : string :=
  "Here you go: ```json " ++ x1_text ++ " ``` hope it helps".

(** a reply with the array [[1, 2]] in an untagged fence *)
Definition generic_text : string := "Result: ``` [1, 2] ``` as asked".

(** a reply that is nothing but the array *)
Definition plain_text : string := "[1, 2]".

Definition array_12 : pyval := PList [PInt 1; PInt 2].

(** a reply whose fence is never closed *)
Definition unclosed_text : string := "```json " ++ x1_text.

Definition connection_refused : exn :=
  mkExn (ExceptionSubclass "ConnectionError") "Connection refused".

Definition interrupt : exn := mkExn KeyboardInterrupt "".

(** The tree of the spec's example: [a.py], [b.txt], [sub/c.go]. *)
Definition demo_tree : Review.node :=
  Review.Dir "proj"
    [Review.File "a.py"; Review.File "b.txt";
     Review.Dir "sub" [Review.File "c.go"]].

(** A pipeline that fails on [proj/a.py] and reports on every other file. *)
Definition flaky_review (file_path : string) : result pyval :=
  if String.eqb file_path "proj/a.py"
  then Raise (mkExn (ExceptionSubclass "RuntimeError") "model unreachable")
  else Ok (PDict [("file", PStr file_path)]).

(** A pipeline the user interrupts. *)
Definition interrupted_review (file_path : string) : result pyval :=
  Raise interrupt.

(** A machine that holds [demo_tree] at [proj] and the file [buggy.py]. *)
Definition demo_env (review : string -> result pyval) (sched : nat -> nat)
  : Review.ReviewEnv := {|
  Review.lookup := fun path =>
    if String.eqb path "proj" then Some demo_tree
    else if String.eqb path "buggy.py" then Some (Review.File "buggy.py")
    else None;
  Review.run_review := review;
  Review.print_report_summary := fun _ => print "summary";
  Review.save_json_report := fun _ => Ok "reports/report.json";
  Review.save_markdown_report := fun _ => Ok "reports/report.md";
  Review.schedule := sched
|}.

(** No configuration file anywhere. *)
Definition no_config : ConfigFiles := {|
  config_exists := fun _ => false;
  yaml_load := fun _ =>
    Raise (mkExn (ExceptionSubclass "FileNotFoundError") "No such file or directory")
|}.

(** A configuration file that [yaml.safe_load] reads as [doc]. *)
Definition config_with (doc : pyval) : ConfigFiles := {|
  config_exists := fun _ => true;
  yaml_load := fun _ => Ok doc
|}.

Definition model_section : pyval :=
  PDict [("name", PStr "deepseek-r1:7b");
         ("temperature", PFloat 4591870180066957722);
         ("max_tokens", PInt 1024)].

(** A configuration with a key for the hosted API. *)
Definition hosted_config : pyval :=
  PDict [("openai", PDict [("base_url", PStr "https://api.example.com/v1");
                           ("api_key", PStr "sk-test")]);
         ("model", model_section)].

(** A configuration that names a daemon and no model. *)
Definition modelless_config : pyval :=
  PDict [("ollama", PDict [("base_url", PStr "http://gpu-box:11434")])].

(** A runtime whose hosted API answers every post with [response] and
    whose daemon is unreachable. *)
Definition hosted_runtime (response : result http_response) : Runtime := {|
  json_loads := Json.loads;
  requests_post := fun _ _ _ => response;
  ollama_chat := fun _ _ _ => Raise connection_refused;
  str_format := fun template _ => Ok template;
  py_repr := fun _ => "<object>"
|}.

Definition hosted_agent : DeepSeekAgent := {|
  use_openai := true;
  openai_base_url := PStr "https://api.example.com/v1";
  openai_api_key := PStr "sk-test";
  ollama_base_url := PStr "http://localhost:11434";
  model_name := PStr "deepseek-r1:latest";
  temperature := PFloat 4591870180066957722;
  max_tokens := PInt 2048
|}.

(** A runtime whose template formatting fails. *)
Definition unformattable_runtime : Runtime := {|
  json_loads := Json.loads;
  requests_post := fun _ _ _ => Raise connection_refused;
  ollama_chat := fun _ _ _ => says "unused";
  str_format := fun _ _ => Raise (mkExn KeyError "'severity'");
  py_repr := fun _ => "<object>"
|}.

(** A pipeline that fails on every file. *)
Definition failing_review (file_path : string) : result pyval :=
  Raise (mkExn (ExceptionSubclass "RuntimeError") "model unreachable").

(** A machine that holds only the socket [run/agent.sock]. *)
Definition socket_env : Review.ReviewEnv := {|
  Review.lookup := fun path =>
    if String.eqb path "run/agent.sock" then Some (Review.Special "agent.sock")
    else None;
  Review.run_review := failing_review;
  Review.print_report_summary := fun _ => print "summary";
  Review.save_json_report := fun _ => Ok "reports/report.json";
  Review.save_markdown_report := fun _ => Ok "reports/report.md";
  Review.schedule := fun _ => 0
|}.

End Fixtures.

(** * Properties *)

(** ** Facts about the [str] methods *)

Module PyStrFacts.
Import PyStr.

Lemma append_nil_r (s : string) : s ++ "" = s.
Proof. induction s; simpl; congruence. Qed.

Lemma append_assoc (a b c : string) : (a ++ b) ++ c = a ++ b ++ c.
Proof. induction a; simpl; congruence. Qed.

Lemma append_inv_head (a b c : string) : a ++ b = a ++ c -> b = c.
Proof. induction a; simpl; intros H; [assumption | injection H; auto]. Qed.

Lemma startswith_app (p s : string) : startswith p (p ++ s) = true.
Proof.
  induction p as [|c p IH]; simpl; [reflexivity|].
  now rewrite Ascii.eqb_refl.
Qed.

Lemma startswith_inv (p s : string) :
  startswith p s = true -> s = p ++ drop (String.length p) s.
Proof.
  revert s; induction p as [|c p IH]; intros [|d s]; simpl; try congruence.
  intros H. apply andb_true_iff in H as [Hc Hp].
  apply Ascii.eqb_eq in Hc. subst d. f_equal. now apply IH.
Qed.

Lemma startswith_app_r (p s t : string) :
  startswith p s = true -> startswith p (s ++ t) = true.
Proof.
  revert s; induction p as [|c p IH]; intros [|d s]; simpl; try congruence.
  intros H. apply andb_true_iff in H as [Hc Hp].
  rewrite Hc. simpl. now apply IH.
Qed.

Lemma startswith_prefix (p q s : string) :
  startswith (p ++ q) s = true -> startswith p s = true.
Proof.
  revert s; induction p as [|c p IH]; intros [|d s]; simpl; try congruence.
  intros H. apply andb_true_iff in H as [Hc Hp].
  rewrite Hc. simpl. now apply (IH s).
Qed.

Lemma drop_app (p s : string) : drop (String.length p) (p ++ s) = s.
Proof. induction p; simpl; auto. Qed.

Lemma length_app (a b : string) :
  String.length (a ++ b) = String.length a + String.length b.
Proof. induction a; simpl; auto. Qed.

(** [cut] splits the text around one occurrence of the separator *)
Lemma cut_sound (sep s a b : string) :
  cut sep s = Some (a, b) -> s = a ++ sep ++ b.
Proof.
  revert a; induction s as [|c s IH]; intros a; simpl.
  - destruct (startswith sep "") eqn:E; [|discriminate].
    intros H; injection H as <- <-. now apply startswith_inv in E.
  - destruct (startswith sep (String c s)) eqn:E.
    + intros H; injection H as <- <-. now apply startswith_inv in E.
    + destruct (cut sep s) as [[a' b']|] eqn:C; [|discriminate].
      intros H; injection H as <- <-. simpl. f_equal. now apply IH.
Qed.

Lemma cut_none_iff (sep s : string) :
  cut sep s = None <-> contains sep s = false.
Proof.
  induction s as [|c s IH]; simpl.
  - destruct (startswith sep ""); simpl; split; congruence.
  - destruct (startswith sep (String c s)); simpl; [split; congruence|].
    destruct (cut sep s) as [[a b]|]; [|tauto].
    split; [discriminate|]. intros H. apply IH in H. discriminate.
Qed.

Lemma contains_cut (sep s : string) :
  contains sep s = true -> exists a b, cut sep s = Some (a, b).
Proof.
  intros H. destruct (cut sep s) as [[a b]|] eqn:C; [eauto|].
  apply cut_none_iff in C. congruence.
Qed.

Lemma cut_contains (sep s a b : string) :
  cut sep s = Some (a, b) -> contains sep s = true.
Proof.
  intros H. destruct (contains sep s) eqn:C; [reflexivity|].
  apply cut_none_iff in C. congruence.
Qed.

(** a text that holds [p ++ q] holds [p] *)
Lemma contains_prefix (p q s : string) :
  contains (p ++ q) s = true -> contains p s = true.
Proof.
  induction s as [|c s IH]; simpl; intros H;
    apply orb_true_iff in H as [H|H]; apply orb_true_iff.
  - left. now apply startswith_prefix in H.
  - discriminate.
  - left. now apply startswith_prefix in H.
  - right. auto.
Qed.

(** the text before the first occurrence holds no occurrence *)
Lemma cut_before_none (sep s a b : string) :
  sep <> "" -> cut sep s = Some (a, b) -> cut sep a = None.
Proof.
  intros Hsep. revert a; induction s as [|c s IH]; intros a; simpl.
  - destruct sep; [congruence|]. simpl. discriminate.
  - destruct (startswith sep (String c s)) eqn:E.
    + intros H; injection H as <- <-. destruct sep; [congruence|]. reflexivity.
    + destruct (cut sep s) as [[a' b']|] eqn:C; [|discriminate].
      intros H; injection H as <- <-. simpl.
      destruct (startswith sep (String c a')) eqn:E'.
      * apply cut_sound in C. subst s.
        apply (startswith_app_r _ _ (sep ++ b')) in E'. simpl in E'. congruence.
      * now rewrite (IH a' eq_refl).
Qed.

Lemma cut_length (sep s a b : string) :
  cut sep s = Some (a, b) ->
  String.length s = String.length a + String.length sep + String.length b.
Proof.
  intros H. apply cut_sound in H. subst s.
  rewrite !length_app. lia.
Qed.

Lemma cut_cons sep c s :
  cut sep (String c s) =
  if startswith sep (String c s) then Some ("", drop (String.length sep) (String c s))
  else match cut sep s with Some (a, b) => Some (String c a, b) | None => None end.
Proof. reflexivity. Qed.

Lemma split_fuel_head (n : nat) (sep s : string) :
  exists tl, split_fuel n sep s = Agent.before sep s :: tl.
Proof.
  unfold Agent.before.
  destruct n; simpl; destruct (cut sep s) as [[a b]|]; eauto.
Qed.

(** [s.split(sep)[0]] *)
Lemma split_nth0 (sep s : string) :
  nth_error (split sep s) 0 = Some (Agent.before sep s).
Proof.
  unfold split. destruct (split_fuel_head (String.length s) sep s) as [tl ->].
  reflexivity.
Qed.

(** [s.split(sep)[1]] when [sep] occurs in [s] *)
Lemma split_nth1 (sep s a b : string) :
  sep <> "" -> cut sep s = Some (a, b) ->
  nth_error (split sep s) 1 = Some (Agent.before sep b).
Proof.
  intros Hsep C. unfold split.
  pose proof (cut_length _ _ _ _ C) as L.
  destruct sep as [|c sep]; [congruence|]. simpl in L.
  destruct (String.length s) as [|n] eqn:Ls; [lia|].
  simpl split_fuel. rewrite C.
  destruct (split_fuel_head n (String c sep) b) as [tl ->]. reflexivity.
Qed.

Lemma before_prefix (sep s : string) :
  exists t, s = Agent.before sep s ++ t.
Proof.
  unfold Agent.before. destruct (cut sep s) as [[a b]|] eqn:C.
  - apply cut_sound in C. eauto.
  - exists "". now rewrite append_nil_r.
Qed.

Lemma before_cons (sep : string) (c : ascii) (s : string) :
  startswith sep (String c s) = false ->
  Agent.before sep (String c s) = String c (Agent.before sep s).
Proof.
  unfold Agent.before. simpl. intros ->.
  now destruct (cut sep s) as [[a b]|].
Qed.

Lemma before_idem (sep s : string) :
  sep <> "" -> Agent.before sep (Agent.before sep s) = Agent.before sep s.
Proof.
  intros Hsep. unfold Agent.before at 2 3.
  destruct (cut sep s) as [[a b]|] eqn:C.
  - unfold Agent.before. now rewrite (cut_before_none _ _ _ _ Hsep C).
  - unfold Agent.before. now rewrite C.
Qed.

Lemma cut_shorter (sep s a b : string) :
  sep <> "" -> cut sep s = Some (a, b) -> String.length b < String.length s.
Proof.
  intros Hsep C. apply cut_length in C.
  destruct sep; [congruence|]. simpl in C. lia.
Qed.

Lemma split_fuel_enough (sep : string) (n m : nat) (s : string) :
  sep <> "" -> String.length s <= n -> String.length s <= m ->
  split_fuel n sep s = split_fuel m sep s.
Proof.
  intros Hsep. revert m s. induction n as [|n IH]; intros m s Hn Hm.
  - destruct s; [|simpl in Hn; lia].
    destruct sep; [congruence|]. now destruct m.
  - destruct m as [|m].
    + destruct s; [|simpl in Hm; lia].
      destruct sep; [congruence|]. reflexivity.
    + cbn [split_fuel]. destruct (cut sep s) as [[a b]|] eqn:C; [|reflexivity].
      apply (cut_shorter _ _ _ _ Hsep) in C. f_equal. apply IH; lia.
Qed.

(** the allowed cuts are never used up: [split] obeys the equation of
    [str.split] *)
Lemma split_unfold (sep s : string) :
  sep <> "" ->
  split sep s = match cut sep s with
                | None => [s]
                | Some (a, b) => a :: split sep b
                end.
Proof.
  intros Hsep. unfold split.
  destruct (cut sep s) as [[a b]|] eqn:C.
  - pose proof (cut_shorter _ _ _ _ Hsep C) as L.
    destruct (String.length s) as [|n] eqn:Ls; [lia|].
    cbn [split_fuel]. rewrite C. f_equal.
    apply split_fuel_enough; [assumption | lia | lia].
  - destruct (String.length s); cbn [split_fuel]; now rewrite C.
Qed.

End PyStrFacts.

(** ** [DeepSeekAgent.query] and [generate_summary] *)

Module AgentFacts.
Import PyStr PyStrFacts Py Agent.
Local Open Scope py_scope.

Lemma before_json_ticks (post : string) :
  startswith "`json" post = false ->
  startswith "``json" post = false ->
  before fence (before fence_json (fence ++ post)) = "".
Proof.
  intros H1 H2.
  assert (T3 : startswith fence_json (String "`" (String "`" (String "`" post)))
               = startswith "json" post) by reflexivity.
  assert (T2 : startswith fence_json (String "`" (String "`" post))
               = startswith "`json" post) by reflexivity.
  assert (T1 : startswith fence_json (String "`" post)
               = startswith "``json" post) by reflexivity.
  unfold before at 2.
  change (fence ++ post) with (String "`" (String "`" (String "`" post))).
  rewrite cut_cons, T3.
  destruct (startswith "json" post); [reflexivity|].
  rewrite cut_cons, T2, H1, cut_cons, T1, H2.
  destruct (cut fence_json post) as [[a b]|]; reflexivity.
Qed.

Lemma tagged_between (rest mid post : string) :
  cut fence rest = Some (mid, post) ->
  startswith "`json" post = false ->
  startswith "``json" post = false ->
  before fence (before fence_json rest) = mid.
Proof.
  revert mid. induction rest as [|c r IH]; intros mid C H1 H2.
  - discriminate.
  - rewrite cut_cons in C. destruct (startswith fence (String c r)) eqn:E.
    + injection C as Hm Hp. subst mid.
      apply startswith_inv in E.
      change (drop 3 (String c r) = post) in Hp.
      change (String c r = fence ++ drop 3 (String c r)) in E.
      rewrite Hp in E. rewrite E.
      now apply before_json_ticks.
    + destruct (cut fence r) as [[m p]|] eqn:C'; [|discriminate].
      injection C as Hm Hp. subst mid p.
      assert (E' : startswith fence_json (String c r) = false).
      { destruct (startswith fence_json (String c r)) eqn:F; [|reflexivity].
        apply (startswith_prefix fence "json") in F. congruence. }
      rewrite (before_cons _ _ _ E').
      destruct (before_prefix fence_json r) as [t Ht].
      rewrite before_cons.
      * f_equal. now apply IH.
      * destruct (startswith fence (String c (before fence_json r))) eqn:F; [|reflexivity].
        apply (startswith_app_r _ _ t) in F.
        change (startswith fence (String c (before fence_json r ++ t)) = true) in F.
        rewrite <- Ht in F. congruence.
Qed.

Lemma fenced_block_text (marker text pre rest : string) :
  marker <> "" ->
  cut marker text = Some (pre, rest) ->
  fenced_block (PStr text) marker
  = Ok (PStr (strip (before fence (before marker rest)))).
Proof.
  intros Hm C. unfold fenced_block, py_split, index, bind.
  rewrite (split_nth1 _ _ _ _ Hm C), split_nth0. reflexivity.
Qed.

Lemma extract_tagged (text pre rest : string) :
  cut fence_json text = Some (pre, rest) ->
  extract (PStr text)
  = Ok (PStr (strip (before fence (before fence_json rest)))).
Proof.
  intros C. unfold extract, py_in, bind.
  rewrite (cut_contains _ _ _ _ C).
  apply (fenced_block_text fence_json text pre rest); [discriminate | exact C].
Qed.

Lemma extract_generic (text pre rest : string) :
  contains fence_json text = false ->
  cut fence text = Some (pre, rest) ->
  extract (PStr text) = Ok (PStr (strip (before fence rest))).
Proof.
  intros N C. unfold extract, py_in, bind.
  rewrite N, (cut_contains _ _ _ _ C).
  rewrite (fenced_block_text fence text pre rest); [|discriminate | exact C].
  rewrite before_idem; [reflexivity | discriminate].
Qed.

Lemma no_fence_no_tag (text : string) :
  contains fence text = false -> contains fence_json text = false.
Proof.
  intros N. destruct (contains fence_json text) eqn:C; [|reflexivity].
  apply (contains_prefix fence "json") in C. congruence.
Qed.

Lemma extract_plain (text : string) :
  contains fence text = false -> extract (PStr text) = Ok (PStr text).
Proof.
  intros N. unfold extract, py_in, bind.
  now rewrite (no_fence_no_tag _ N), N.
Qed.

(** on a [str], lines 90-93 raise nothing and leave a [str] in [content] *)
Lemma extract_candidate (text : string) :
  extract (PStr text) = Ok (PStr (candidate text)).
Proof.
  unfold candidate.
  destruct (cut fence_json text) as [[pre rest]|] eqn:C.
  - now rewrite (extract_tagged _ _ _ C).
  - apply cut_none_iff in C.
    destruct (cut fence text) as [[pre rest]|] eqn:C'.
    + now rewrite (extract_generic _ _ _ C C').
    + apply cut_none_iff in C'. now rewrite (extract_plain _ C').
Qed.

(** an opening tag that follows text without a tag is the first one *)
Lemma straddle (s rest : string) :
  startswith fence_json (s ++ fence_json ++ rest) = true ->
  s = "" \/ startswith fence_json s = true.
Proof.
  destruct s as [|c1 [|c2 [|c3 [|c4 [|c5 [|c6 [|c7 s]]]]]]]; auto; intros H; right;
    cbn in H;
    repeat match type of H with
           | (_ && _)%bool = true => apply andb_true_iff in H as [? H]
           end;
    try discriminate;
    cbn;
    repeat match goal with
           | E : Ascii.eqb _ _ = true |- _ => rewrite E; clear E
           end;
    reflexivity.
Qed.

Lemma cut_first_tag (pre rest : string) :
  contains fence_json pre = false ->
  cut fence_json (pre ++ fence_json ++ rest) = Some (pre, rest).
Proof.
  induction pre as [|c pre IH]; intros N.
  - reflexivity.
  - cbn [contains] in N. apply orb_false_iff in N as [N1 N2].
    change (String c pre ++ fence_json ++ rest)
      with (String c (pre ++ fence_json ++ rest)).
    rewrite cut_cons.
    destruct (startswith fence_json (String c (pre ++ fence_json ++ rest))) eqn:E.
    + apply (straddle (String c pre) rest) in E as [E|E]; congruence.
    + now rewrite (IH N2).
Qed.

Section Query.
Context {R : Runtime}.

Lemma try_suite_text (self : DeepSeekAgent) (prompt text : string) :
  fetch_content self prompt = Ok (PStr text) ->
  try_suite self prompt true
  = (json_loads (candidate text), Some (PStr (candidate text))).
Proof.
  intros F. unfold try_suite. now rewrite F, extract_candidate.
Qed.

Lemma query_parsed (self : DeepSeekAgent) (prompt text : string) (v : pyval)
  (o : console) :
  fetch_content self prompt = Ok (PStr text) ->
  json_loads (candidate text) = Ok v ->
  query self prompt true o = (Ok v, o).
Proof.
  intros F J. unfold query. now rewrite (try_suite_text _ _ _ F), J.
Qed.

Lemma query_backend_raises (self : DeepSeekAgent) (prompt : string) (e : exn) :
  query_backend self prompt = Raise e -> fetch_content self prompt = Raise e.
Proof.
  unfold query_backend, fetch_content.
  destruct (use_openai self); intros ->; reflexivity.
Qed.

End Query.

Section Claims.
Context {R : Runtime}.

(** C1, as the code has it: when the decoder rejects the candidate with a
    JSON decode error, [query] with [parse_json=True] returns (it does not
    raise) the record whose [error] is ['json_parse_error'] and whose
    [raw_response] is the whole candidate handed to the decoder: the reply
    itself when it holds no fence, the trimmed fence content otherwise.
    Only the line printed to the console is cut to 200 characters. *)
Theorem query_json_parse_error_record (self : DeepSeekAgent) (prompt text : string)
  (e : exn) (o : console) :
  fetch_content self prompt = Ok (PStr text) ->
  json_loads (candidate text) = Raise e ->
  is_JSONDecodeError e = true ->
  query self prompt true o
  = (Ok (PDict [("error", PStr "json_parse_error");
                ("raw_response", PStr (candidate text))]),
     app o [" JSON parsing error: " ++ exn_str e;
            "Raw response: " ++ take 200 (candidate text) ++ "..."])
  /\ extract (PStr text) = Ok (PStr (candidate text))
  /\ (contains fence text = false -> candidate text = text).
Proof.
  intros F J D. split; [|split].
  - unfold query. rewrite (try_suite_text _ _ _ F), J, D.
    unfold except_JSONDecodeError, mbind, print, lift, ret. simpl.
    now rewrite <- app_assoc.
  - apply extract_candidate.
  - intros N. unfold candidate. now rewrite (extract_plain _ N).
Qed.

(** C2, as the code has it: the priority is tagged fence, generic fence,
    whole text, and a decoded value is returned as it is. *)
Theorem query_extraction_priority (self : DeepSeekAgent) (prompt text : string)
  (o : console) :
  fetch_content self prompt = Ok (PStr text) ->
  extract (PStr text) = Ok (PStr (candidate text))
  /\ (forall pre rest mid post,
        cut fence_json text = Some (pre, rest) ->
        cut fence rest = Some (mid, post) ->
        startswith "`json" post = false ->
        startswith "``json" post = false ->
        candidate text = strip mid)
  /\ (forall pre rest mid post,
        contains fence_json text = false ->
        cut fence text = Some (pre, rest) ->
        cut fence rest = Some (mid, post) ->
        candidate text = strip mid)
  /\ (contains fence text = false -> candidate text = text)
  /\ (forall v, json_loads (candidate text) = Ok v ->
                query self prompt true o = (Ok v, o))
  /\ (forall pre post,
        text = pre ++ fence_json ++ " " ++ Fixtures.x1_text ++ " " ++ fence ++ post ->
        contains fence_json pre = false ->
        startswith "`json" post = false ->
        startswith "``json" post = false ->
        json_loads Fixtures.x1_text = Ok Fixtures.x1_value ->
        query self prompt true o = (Ok Fixtures.x1_value, o)).
Proof.
  intros F. repeat split.
  - apply extract_candidate.
  - intros pre rest mid post C C' H1 H2. unfold candidate.
    now rewrite (extract_tagged _ _ _ C), (tagged_between _ _ _ C' H1 H2).
  - intros pre rest mid post N C C'. unfold candidate.
    rewrite (extract_generic _ _ _ N C). unfold before. now rewrite C'.
  - intros N. unfold candidate. now rewrite (extract_plain _ N).
  - intros v J. now apply (query_parsed self prompt text).
  - intros pre post -> N H1 H2 J. apply (query_parsed self prompt _ _ o F).
    unfold candidate.
    rewrite (extract_tagged _ pre _ (cut_first_tag pre _ N)).
    assert (C : cut fence (" " ++ Fixtures.x1_text ++ " " ++ fence ++ post)
                = Some (" " ++ Fixtures.x1_text ++ " ", post)) by reflexivity.
    rewrite (tagged_between _ _ _ C H1 H2).
    exact J.
Qed.

(** C8: the value [query] returns for a reply is a function of the reply's
    text alone: neither the agent, the prompt nor what was printed before
    changes it. *)
Theorem extraction_deterministic (self1 self2 : DeepSeekAgent)
  (prompt1 prompt2 text : string) (o1 o2 : console) :
  fetch_content self1 prompt1 = Ok (PStr text) ->
  fetch_content self2 prompt2 = Ok (PStr text) ->
  fst (query self1 prompt1 true o1) = fst (query self2 prompt2 true o2).
Proof.
  intros F1 F2. unfold query.
  rewrite (try_suite_text _ _ _ F1), (try_suite_text _ _ _ F2).
  destruct (json_loads (candidate text)) as [v|e]; [reflexivity|].
  destruct (is_JSONDecodeError e); [reflexivity|].
  destruct (is_Exception e); reflexivity.
Qed.

(** C9: a fence that is opened and never closed gives the text after the
    opening marker, trimmed, as the candidate; when that decodes, [query]
    returns the decoded value. *)
Theorem query_unclosed_fence (self : DeepSeekAgent) (prompt text pre rest : string)
  (o : console) :
  fetch_content self prompt = Ok (PStr text) ->
  cut fence_json text = Some (pre, rest)
  \/ (contains fence_json text = false /\ cut fence text = Some (pre, rest)) ->
  contains fence rest = false ->
  extract (PStr text) = Ok (PStr (strip rest))
  /\ (forall v, json_loads (strip rest) = Ok v ->
                query self prompt true o = (Ok v, o)).
Proof.
  intros F C N.
  assert (X : extract (PStr text) = Ok (PStr (strip rest))).
  { destruct C as [C | [T C]].
    - rewrite (extract_tagged _ _ _ C). unfold before.
      apply no_fence_no_tag in N as N'. apply cut_none_iff in N, N'.
      now rewrite N', N.
    - rewrite (extract_generic _ _ _ T C). unfold before.
      apply cut_none_iff in N. now rewrite N. }
  split; [exact X|].
  intros v J. apply (query_parsed self prompt text v o F).
  unfold candidate. now rewrite X.
Qed.

(** C5, as the code has it: an exception of the backend call that is an
    instance of [Exception] and no JSON decode error is caught, and [query]
    returns the record holding its message. *)
Theorem query_converts_Exception (self : DeepSeekAgent) (prompt : string)
  (parse_json : bool) (e : exn) (o : console) :
  query_backend self prompt = Raise e ->
  is_Exception e = true ->
  is_JSONDecodeError e = false ->
  query self prompt parse_json o
  = (Ok (PDict [("error", PStr (exn_str e))]),
     app o [" Error querying model: " ++ exn_str e]).
Proof.
  intros B X D. unfold query, try_suite.
  rewrite (query_backend_raises _ _ _ B), D, X. reflexivity.
Qed.

(** C10, as the code has it: once the template is formatted,
    [generate_summary] returns the reply's content when the backend
    replies, and the fallback text whenever [query] returns a record
    without ['response'], as it does for an [Exception] of the backend that
    is no JSON decode error. *)
Theorem generate_summary_result (self : DeepSeekAgent) (bug_count opt_count : Z)
  (prompt_template prompt : string) (o : console) :
  str_format prompt_template
    [("bug_count", PInt bug_count); ("opt_count", PInt opt_count)] = Ok prompt ->
  (forall content,
      fetch_content self prompt = Ok content ->
      generate_summary self bug_count opt_count prompt_template o
      = (Ok content, o))
  /\ (forall e,
        fetch_content self prompt = Raise e ->
        is_Exception e = true ->
        is_JSONDecodeError e = false ->
        generate_summary self bug_count opt_count prompt_template o
        = (Ok (PStr "No summary generated"),
           app o [" Error querying model: " ++ exn_str e]))
  /\ (forall d o',
        query self prompt false o = (Ok (PDict d), o') ->
        assoc "response" d = None ->
        generate_summary self bug_count opt_count prompt_template o
        = (Ok (PStr "No summary generated"), o')).
Proof.
  intros S. unfold generate_summary, mbind, lift. rewrite S.
  repeat split.
  - intros content F. unfold query, try_suite. rewrite F. reflexivity.
  - intros e F X D. unfold query, try_suite. rewrite F, D, X. reflexivity.
  - intros d o' Q A. rewrite Q. simpl. now rewrite A.
Qed.

End Claims.

Import Fixtures.

Lemma query_json_parse_error_record_witness :
  query (R := scripted_runtime (says "```json oops ```")) default_agent
    "review" true []
  = (Ok (PDict [("error", PStr "json_parse_error"); ("raw_response", PStr "oops")]),
     [" JSON parsing error: Expecting value"; "Raw response: oops..."]).
Proof.
  apply (@query_json_parse_error_record
           (scripted_runtime (says "```json oops ```")) default_agent "review"
           "```json oops ```" (mkExn JSONDecodeError "Expecting value") []);
    reflexivity.
Defined.

(** C1 as stated fails: [raw_response] holds all 201 characters of a reply
    that is no JSON, not its first 200; and for a fenced reply it holds the
    fence content, not the reply. *)
Lemma raw_response_is_whole_candidate :
  fst (query (R := scripted_runtime (says long_text)) default_agent "review" true [])
  = Ok (PDict [("error", PStr "json_parse_error"); ("raw_response", PStr long_text)])
  /\ long_text <> take 200 long_text
  /\ fst (query (R := scripted_runtime (says "```json oops ```")) default_agent
            "review" true [])
     = Ok (PDict [("error", PStr "json_parse_error"); ("raw_response", PStr "oops")])
  /\ take 200 "```json oops ```" = "```json oops ```".
Proof.
  repeat split; try reflexivity.
  intros H. apply (f_equal String.length) in H. vm_compute in H. discriminate.
Qed.

Lemma query_extraction_priority_witness :
  query (R := scripted_runtime (says chatty_text)) default_agent "review" true []
  = (Ok x1_value, [])
  /\ candidate chatty_text = x1_text
  /\ candidate generic_text = plain_text
  /\ query (R := scripted_runtime (says generic_text)) default_agent "review" true []
     = (Ok array_12, [])
  /\ candidate plain_text = plain_text
  /\ query (R := scripted_runtime (says plain_text)) default_agent "review" true []
     = (Ok array_12, []).
Proof.
  destruct (@query_extraction_priority (scripted_runtime (says chatty_text))
              default_agent "review" chatty_text [] eq_refl)
    as (_ & T & _ & _ & _ & H).
  destruct (@query_extraction_priority (scripted_runtime (says generic_text))
              default_agent "review" generic_text [] eq_refl)
    as (_ & _ & G & _ & Gv & _).
  destruct (@query_extraction_priority (scripted_runtime (says plain_text))
              default_agent "review" plain_text [] eq_refl)
    as (_ & _ & _ & P & Pv & _).
  refine (conj _ (conj _ (conj _ (conj _ (conj _ _))))).
  - apply (H "Here you go: " " hope it helps"); reflexivity.
  - apply (T "Here you go: " (" " ++ x1_text ++ " ``` hope it helps")
             (" " ++ x1_text ++ " ") " hope it helps"); reflexivity.
  - apply (G "Result: " " [1, 2] ``` as asked" " [1, 2] " " as asked");
      reflexivity.
  - apply Gv. reflexivity.
  - apply P. reflexivity.
  - apply Pv. reflexivity.
Defined.

(** C2 as stated fails: between the opening tag of [crowded_text] and the
    next closing marker stands [ 1], which decodes to 1, but the code cuts
    at the next tag first, keeps a backtick and returns an error record;
    and a reply without fence reaches the decoder untrimmed. *)
Lemma tagged_fence_cut_at_next_tag :
  extract (PStr crowded_text) = Ok (PStr "1`")
  /\ spec_candidate crowded_text = "1"
  /\ Json.loads (spec_candidate crowded_text) = Ok (PInt 1)
  /\ fst (query (R := scripted_runtime (says crowded_text)) default_agent
            "review" true [])
     = Ok (PDict [("error", PStr "json_parse_error"); ("raw_response", PStr "1`")])
  /\ extract (PStr tabbed_text) = Ok (PStr tabbed_text)
  /\ spec_candidate tabbed_text = "1"
  /\ fst (query (R := scripted_runtime (says tabbed_text)) default_agent
            "review" true [])
     = Ok (PDict [("error", PStr "json_parse_error");
                  ("raw_response", PStr tabbed_text)]).
Proof. repeat split; reflexivity. Qed.

Lemma extraction_deterministic_witness :
  fst (query (R := scripted_runtime (says chatty_text)) default_agent "first" true [])
  = fst (query (R := scripted_runtime (says chatty_text))
           (mkAgent false PNone PNone PNone (PStr "other") PNone (PInt 1))
           "second" true ["printed before"]).
Proof.
  apply (@extraction_deterministic (scripted_runtime (says chatty_text))
           default_agent (mkAgent false PNone PNone PNone (PStr "other") PNone (PInt 1))
           "first" "second" chatty_text [] ["printed before"]);
    reflexivity.
Defined.

Lemma query_unclosed_fence_witness :
  extract (PStr unclosed_text) = Ok (PStr x1_text)
  /\ query (R := scripted_runtime (says unclosed_text)) default_agent "review" true []
     = (Ok x1_value, []).
Proof.
  destruct (@query_unclosed_fence (scripted_runtime (says unclosed_text))
              default_agent "review" unclosed_text "" (" " ++ x1_text) []
              eq_refl (or_introl eq_refl) eq_refl) as [H1 H2].
  split; [exact H1 | apply H2; reflexivity].
Defined.

Lemma query_converts_Exception_witness :
  query (R := scripted_runtime (Raise connection_refused)) default_agent
    "review" true []
  = (Ok (PDict [("error", PStr "Connection refused")]),
     [" Error querying model: Connection refused"]).
Proof.
  apply (@query_converts_Exception (scripted_runtime (Raise connection_refused))
           default_agent "review" true connection_refused []);
    reflexivity.
Defined.

(** C5 as stated fails: a [KeyboardInterrupt] raised while the backend is
    queried is no JSON decode error, and [query] lets it through. *)
Lemma query_lets_KeyboardInterrupt_through :
  query_backend (R := scripted_runtime (Raise interrupt)) default_agent "review"
  = Raise interrupt
  /\ is_JSONDecodeError interrupt = false
  /\ query (R := scripted_runtime (Raise interrupt)) default_agent "review" true []
     = (Raise interrupt, []).
Proof. repeat split; reflexivity. Qed.

Lemma generate_summary_result_witness :
  generate_summary (R := scripted_runtime (says "All good")) default_agent 2 3
    "Sum up {bug_count} bugs and {opt_count} hints" []
  = (Ok (PStr "All good"), [])
  /\ generate_summary (R := scripted_runtime (Raise connection_refused))
       default_agent 2 3 "Sum up {bug_count} bugs and {opt_count} hints" []
     = (Ok (PStr "No summary generated"),
        [" Error querying model: Connection refused"]).
Proof.
  split.
  - destruct (@generate_summary_result (scripted_runtime (says "All good"))
                default_agent 2 3 "Sum up {bug_count} bugs and {opt_count} hints"
                "Sum up {bug_count} bugs and {opt_count} hints" [] eq_refl)
      as (H & _ & _).
    apply H. reflexivity.
  - destruct (@generate_summary_result (scripted_runtime (Raise connection_refused))
                default_agent 2 3 "Sum up {bug_count} bugs and {opt_count} hints"
                "Sum up {bug_count} bugs and {opt_count} hints" [] eq_refl)
      as (_ & H & _).
    apply (H connection_refused); reflexivity.
Defined.

(** C10 as stated fails: a [KeyboardInterrupt] raised while the backend is
    queried leaves [generate_summary] as an exception. *)
Lemma generate_summary_raises_on_interrupt :
  generate_summary (R := scripted_runtime (Raise interrupt)) default_agent 2 3
    "Sum up {bug_count} bugs and {opt_count} hints" []
  = (Raise interrupt, []).
Proof. reflexivity. Qed.

(** A JSON decode error of the backend call itself reaches the first
    handler before [content] is assigned: the handler raises. *)
Example query_decode_error_before_content :
  query (R := scripted_runtime (Raise (mkExn JSONDecodeError "Expecting value")))
    default_agent "review" true []
  = (Raise (mkExn UnboundLocalError
              "cannot access local variable 'content' where it is not associated with a value"),
     [" JSON parsing error: Expecting value"]).
Proof. reflexivity. Qed.

End AgentFacts.

(** ** [scan_directory], [run_project_review] and [main] *)

Module ReviewFacts.
Import PyStr PyStrFacts Py Review.
Local Open Scope py_scope.

(** *** Paths *)

Lemma endswith_app (pre suffix : string) : endswith (pre ++ suffix) suffix = true.
Proof.
  induction pre as [|c pre IH].
  - destruct suffix; cbn [append endswith]; now rewrite String.eqb_refl.
  - cbn [append endswith]. rewrite IH. apply orb_true_r.
Qed.

Lemma endswith_inv (s suffix : string) :
  endswith s suffix = true -> exists pre, s = pre ++ suffix.
Proof.
  induction s as [|c s IH]; cbn [endswith]; intros H;
    apply orb_true_iff in H as [H|H].
  - apply String.eqb_eq in H. subst. now exists "".
  - discriminate.
  - apply String.eqb_eq in H. subst. now exists "".
  - destruct (IH H) as [pre ->]. now exists (String c pre).
Qed.

Lemma last_char_cons (c : ascii) (s : string) :
  last_char (String c s) = match s with
                           | EmptyString => Some c
                           | _ => last_char s
                           end.
Proof.
  unfold last_char. simpl. destruct s as [|d s]; [reflexivity|]. simpl.
  generalize (Some d). revert c d.
  induction s as [|x s IH]; intros; simpl; auto.
Qed.

Lemma last_char_app (a b : string) :
  b <> "" -> last_char (a ++ b) = last_char b.
Proof.
  intros Hb. induction a as [|c a IH]; [reflexivity|].
  simpl. rewrite last_char_cons, IH.
  destruct (a ++ b) eqn:E; [|reflexivity].
  destruct a; simpl in E; congruence.
Qed.

Lemma contains_cons (sub : string) (c : ascii) (s : string) :
  contains sub (String c s) = startswith sub (String c s) || contains sub s.
Proof. reflexivity. Qed.

Lemma last_char_slash (s : string) :
  last_char s = Some "/"%char -> contains "/" s = true.
Proof.
  induction s as [|c s IH]; [discriminate|].
  rewrite last_char_cons. destruct s as [|d s].
  - intros H. injection H as ->. reflexivity.
  - intros H. rewrite contains_cons, (IH H). apply orb_true_r.
Qed.

Lemma good_name_inv (name : string) :
  good_name name = true -> name <> "" /\ contains "/" name = false.
Proof.
  unfold good_name. intros H. apply andb_true_iff in H as [H1 H2].
  apply negb_true_iff in H1, H2. split; [|assumption].
  intros ->. discriminate.
Qed.

Lemma contains_slash_app (a b : string) : contains "/" (a ++ "/" ++ b) = true.
Proof.
  induction a as [|c a IH]; [reflexivity|].
  change (String c a ++ "/" ++ b) with (String c (a ++ "/" ++ b)).
  rewrite contains_cons, IH. apply orb_true_r.
Qed.

Lemma path_join_good (top name : string) :
  good_name name = true -> path_join top name = dir_prefix top ++ name.
Proof.
  intros H. apply good_name_inv in H as [H1 H2].
  unfold path_join, dir_prefix.
  destruct name as [|c name]; [congruence|].
  rewrite contains_cons in H2. apply orb_false_iff in H2 as [H2 _]. rewrite H2.
  destruct (String.eqb top "" || endswith top "/"); [reflexivity|].
  now rewrite append_assoc.
Qed.

Lemma dir_prefix_join (top name : string) :
  good_name name = true ->
  dir_prefix (path_join top name) = dir_prefix top ++ name ++ "/".
Proof.
  intros H. rewrite (path_join_good _ _ H).
  apply good_name_inv in H as [H1 H2].
  unfold dir_prefix at 1.
  destruct (String.eqb (dir_prefix top ++ name) "") eqn:E.
  - apply String.eqb_eq in E. destruct (dir_prefix top); simpl in E; congruence.
  - destruct (endswith (dir_prefix top ++ name) "/") eqn:F.
    + apply endswith_inv in F as [pre F].
      assert (L : last_char (dir_prefix top ++ name) = Some "/"%char).
      { rewrite F. now rewrite last_char_app. }
      rewrite (last_char_app _ _ H1) in L. apply last_char_slash in L. congruence.
    + simpl. now rewrite append_assoc.
Qed.

(** the name before the first separator is determined by the path *)
Lemma first_component_unique (a b x y : string) :
  contains "/" a = false -> contains "/" b = false ->
  a ++ "/" ++ x = b ++ "/" ++ y -> a = b.
Proof.
  revert b. induction a as [|c a IH]; intros [|d b] Ha Hb E.
  - reflexivity.
  - simpl in E. injection E as <- _. discriminate.
  - simpl in E. injection E as -> _. discriminate.
  - simpl in E. injection E as -> E.
    rewrite contains_cons in Ha, Hb.
    apply orb_false_iff in Ha as [_ Ha]. apply orb_false_iff in Hb as [_ Hb].
    f_equal. now apply IH.
Qed.

(** *** The walk *)

Lemma collect_walk_dir (top d : string) (entries : list node) :
  collect (walk top (Dir d entries))
  = (map (path_join top) (filter is_code_file (filenames entries))
       ++ flat_map (below top) entries)%list.
Proof.
  cbn [walk]. unfold collect at 1. cbn [flat_map]. f_equal.
  induction entries as [|c entries IH]; [reflexivity|].
  cbn [flat_map]. rewrite flat_map_app. f_equal; [|exact IH].
  destruct c; reflexivity.
Qed.

Lemma scan_iff (n : node) :
  forall top path,
    In path (collect (walk top n))
    <-> exists name, file_under top n path name /\ is_code_file name = true.
Proof.
  induction n as [name|name|d entries IH] using node_nested_ind; intros top path.
  - split; [intros [] | intros (name' & H & _); inversion H].
  - split; [intros [] | intros (name' & H & _); inversion H].
  - rewrite collect_walk_dir, in_app_iff, in_map_iff, in_flat_map.
    rewrite Forall_forall in IH. split.
    + intros [(name & <- & H) | (c & Hc & H)].
      * apply filter_In in H as [H1 H2]. exists name. split; [|exact H2].
        now apply under_here.
      * destruct c as [?|?|sub subentries]; try contradiction.
        apply (IH _ Hc) in H as (name & H1 & H2).
        exists name. split; [|exact H2].
        now apply (under_sub top d entries sub subentries).
    + intros (name & H & C). inversion H; subst.
      * left. exists name. split; [reflexivity|]. apply filter_In. now split.
      * right. exists (Dir sub subentries). split; [assumption|].
        apply (IH (Dir sub subentries)); [assumption|]. now exists name.
Qed.

Lemma is_code_file_iff (name : string) :
  is_code_file name = true
  <-> exists ext stem, In ext supported_extensions /\ name = stem ++ ext.
Proof.
  unfold is_code_file. rewrite existsb_exists. split.
  - intros (ext & H1 & H2). apply endswith_inv in H2 as [stem ->]. eauto.
  - intros (ext & stem & H1 & ->). exists ext. split; [assumption|].
    apply endswith_app.
Qed.

(** the test tells upper case from lower case *)
Lemma upper_case_is_no_code_file (stem : string) :
  is_code_file (stem ++ ".PY") = false.
Proof.
  destruct (is_code_file (stem ++ ".PY")) eqn:E; [|reflexivity].
  apply is_code_file_iff in E as (ext & stem' & H & E).
  assert (L : last_char (stem' ++ ext) = Some "Y"%char).
  { rewrite <- E. now rewrite last_char_app. }
  cbn [supported_extensions In] in H.
  repeat (destruct H as [<- | H];
          [rewrite last_char_app in L by discriminate; discriminate|]).
  contradiction.
Qed.

(** *** No path is found twice *)

Lemma nodupb_NoDup (l : list string) : nodupb l = true -> NoDup l.
Proof.
  induction l as [|x l IH]; intros H; [constructor|].
  cbn [nodupb] in H. apply andb_true_iff in H as [H1 H2].
  constructor; [|auto].
  intros X. apply negb_true_iff in H1.
  assert (E : existsb (String.eqb x) l = true).
  { apply existsb_exists. exists x. split; [assumption | apply String.eqb_refl]. }
  congruence.
Qed.

Lemma well_formed_dir (d : string) (entries : list node) :
  well_formed (Dir d entries) = true ->
  (forall c, In c entries -> good_name (node_name c) = true)
  /\ NoDup (map node_name entries)
  /\ (forall c, In c entries -> well_formed c = true).
Proof.
  cbn [well_formed]. intros H.
  apply andb_true_iff in H as [H H3]. apply andb_true_iff in H as [H1 H2].
  rewrite forallb_forall in H1, H3. auto using nodupb_NoDup.
Qed.

Lemma filenames_entry (entries : list node) (name : string) :
  In name (filenames entries) ->
  exists c, In c entries /\ node_name c = name.
Proof.
  unfold filenames. rewrite in_flat_map. intros (c & H1 & H2).
  exists c. split; [assumption|].
  destruct c; cbn in H2; try contradiction; destruct H2 as [<-|[]]; reflexivity.
Qed.

Lemma filenames_NoDup (entries : list node) :
  NoDup (map node_name entries) -> NoDup (filenames entries).
Proof.
  induction entries as [|c entries IH]; intros H; [constructor|].
  cbn [map] in H. inversion H as [|? ? Hn Hl]; subst.
  assert (X : ~ In (node_name c) (filenames entries)).
  { intros X. apply filenames_entry in X as (c' & X1 & X2).
    apply Hn. rewrite <- X2. now apply in_map. }
  unfold filenames. cbn [flat_map]. fold (filenames entries).
  destruct c; cbn [app]; auto; constructor; auto.
Qed.

(** every path found below [top] starts with the directory part of [top] *)
Lemma collect_shape (n : node) :
  well_formed n = true ->
  forall top path,
    In path (collect (walk top n)) -> exists x, path = dir_prefix top ++ x.
Proof.
  induction n as [name|name|d entries IH] using node_nested_ind;
    intros W top path; try (intros []).
  apply well_formed_dir in W as (G & _ & W).
  rewrite Forall_forall in IH.
  rewrite collect_walk_dir, in_app_iff, in_map_iff, in_flat_map.
  intros [(name & <- & H) | (c & Hc & H)].
  - apply filter_In in H as [H _].
    apply filenames_entry in H as (c & Hc & <-).
    exists (node_name c). apply path_join_good. auto.
  - destruct c as [?|?|sub subentries]; try contradiction.
    apply (IH _ Hc (W _ Hc)) in H as [x ->].
    rewrite (dir_prefix_join top sub (G _ Hc)).
    exists (sub ++ "/" ++ x). now rewrite !append_assoc.
Qed.

Lemma below_shape (top : string) (c : node) (path : string) :
  good_name (node_name c) = true -> well_formed c = true ->
  In path (below top c) ->
  exists x, path = dir_prefix top ++ node_name c ++ "/" ++ x.
Proof.
  intros G W H. destruct c as [?|?|sub subentries]; try contradiction.
  apply (collect_shape _ W) in H as [x ->].
  rewrite (dir_prefix_join top sub G).
  exists x. now rewrite !append_assoc.
Qed.

(** pieces that are duplicate-free and told apart by a key with no
    duplicates make a duplicate-free whole *)
Lemma NoDup_flat_map_keyed {A B K : Type} (key : A -> K) (h : A -> list B)
  (l : list A) :
  NoDup (map key l) ->
  (forall a, In a l -> NoDup (h a)) ->
  (forall a1 a2 b, In a1 l -> In a2 l -> In b (h a1) -> In b (h a2) ->
                   key a1 = key a2) ->
  NoDup (flat_map h l).
Proof.
  induction l as [|a l IH]; intros Hk Hn Hd; [constructor|].
  cbn [map] in Hk. inversion Hk as [|? ? Hx Hl]; subst.
  cbn [flat_map]. apply NoDup_app.
  - apply Hn. now left.
  - apply IH; [assumption | intros; apply Hn; now right |].
    intros a1 a2 b H1 H2. apply Hd; now right.
  - intros b Hb X. apply in_flat_map in X as (a' & Ha' & X).
    apply Hx. rewrite (Hd a a' b); [now apply in_map | now left | now right | |];
      assumption.
Qed.

Lemma collect_NoDup (n : node) :
  well_formed n = true -> forall top, NoDup (collect (walk top n)).
Proof.
  induction n as [name|name|d entries IH] using node_nested_ind;
    intros W top; try constructor.
  pose proof (well_formed_dir _ _ W) as (G & N & Wc).
  rewrite Forall_forall in IH.
  rewrite collect_walk_dir. apply NoDup_app.
  - apply NoDup_map_NoDup_ForallPairs;
      [|apply NoDup_filter; now apply filenames_NoDup].
    intros a b Ha Hb E.
    apply filter_In in Ha as [Ha _]. apply filter_In in Hb as [Hb _].
    apply filenames_entry in Ha as (ca & Hca & <-).
    apply filenames_entry in Hb as (cb & Hcb & <-).
    rewrite !path_join_good in E by auto.
    now apply append_inv_head in E.
  - apply (NoDup_flat_map_keyed node_name); [assumption | |].
    + intros c Hc. destruct c; try constructor. apply (IH _ Hc (Wc _ Hc)).
    + intros c1 c2 p H1 H2 P1 P2.
      apply (below_shape top c1 p (G _ H1) (Wc _ H1)) in P1 as [x1 E1].
      apply (below_shape top c2 p (G _ H2) (Wc _ H2)) in P2 as [x2 E2].
      rewrite E1 in E2. apply append_inv_head in E2.
      apply (first_component_unique _ _ _ _
               (proj2 (good_name_inv _ (G _ H1)))
               (proj2 (good_name_inv _ (G _ H2))) E2).
  - intros p Hp X.
    apply in_map_iff in Hp as (name & <- & Hp).
    apply filter_In in Hp as [Hp _].
    apply filenames_entry in Hp as (c & Hc & <-).
    apply in_flat_map in X as (c' & Hc' & X).
    apply (below_shape top c' _ (G _ Hc') (Wc _ Hc')) in X as [x E].
    rewrite (path_join_good _ _ (G _ Hc)) in E. apply append_inv_head in E.
    pose proof (proj2 (good_name_inv _ (G _ Hc))) as S.
    rewrite E, contains_slash_app in S. discriminate.
Qed.

(** *** The threads of [run_project_review] *)

Lemma remove_nth_perm {A : Type} (l : list A) (k : nat) (x : A) :
  nth_error l k = Some x -> Permutation l (x :: remove_nth k l).
Proof.
  revert k. induction l as [|y l IH]; intros [|k] H; try discriminate.
  - injection H as ->. reflexivity.
  - cbn [remove_nth]. rewrite perm_swap. constructor. now apply IH.
Qed.

Lemma remove_nth_length {A : Type} (l : list A) (k : nat) (x : A) :
  nth_error l k = Some x -> List.length l = S (List.length (remove_nth k l)).
Proof.
  intros H. apply (Permutation_length (remove_nth_perm l k x H)).
Qed.

Lemma nth_error_mod {A : Type} (l : list A) (c : nat) :
  l <> [] -> exists x, nth_error l (c mod List.length l) = Some x.
Proof.
  intros H.
  destruct (nth_error l (c mod List.length l)) as [x|] eqn:E; [eauto|].
  apply nth_error_None in E.
  assert (List.length l <> 0) by (destruct l; simpl; congruence).
  pose proof (Nat.mod_upper_bound c (List.length l)). lia.
Qed.

Section Pool.
Context {E : ReviewEnv}.

Lemma succeeded_app (a b : list string) :
  succeeded (a ++ b) = (succeeded a ++ succeeded b)%list.
Proof. apply flat_map_app. Qed.

Lemma review_file_fields (f : string) (p : pool) :
  unstarted (review_file f p) = unstarted p
  /\ running (review_file f p) = running p
  /\ reports (review_file f p) = (reports p ++ succeeded [f])%list.
Proof.
  unfold review_file, succeeded. cbn [flat_map].
  destruct (run_review f) as [r|e]; cbn; rewrite ?app_nil_r; auto.
  destruct (is_Exception e); cbn; rewrite ?app_nil_r; auto.
Qed.

Lemma start_inv (files : list string) (p : pool) (done : list string) :
  pool_inv files p done -> pool_inv files (start p) done.
Proof.
  unfold pool_inv, start. intros [H1 H2].
  destruct (unstarted p) as [|f rest] eqn:U; [now rewrite U|].
  cbn. split; [|assumption].
  now rewrite <- app_assoc.
Qed.

Lemma finish_inv (files : list string) (p : pool) (done : list string) (k : nat) :
  pool_inv files p done -> exists done', pool_inv files (finish k p) done'.
Proof.
  unfold pool_inv, finish. intros [H1 H2].
  destruct (nth_error (running p) k) as [f|] eqn:N; [|eauto].
  exists (done ++ [f])%list.
  destruct (review_file_fields f
              (mkPool (unstarted p) (remove_nth k (running p)) (reports p) (out p)))
    as (-> & -> & ->).
  cbn. split.
  - etransitivity; [exact H1|]. rewrite <- app_assoc.
    apply Permutation_app_head.
    apply (Permutation_app_tail (unstarted p) (remove_nth_perm _ _ _ N)).
  - now rewrite succeeded_app, H2.
Qed.

Lemma step_inv (files : list string) (p : pool) (done : list string) (c : nat) :
  pool_inv files p done -> exists done', pool_inv files (step c p) done'.
Proof.
  intros H. unfold step.
  destruct (unstarted p), (running p); eauto using start_inv, finish_inv.
  destruct c; eauto using start_inv, finish_inv.
Qed.

Lemma start_steps (p : pool) :
  unstarted p <> [] -> steps_left (start p) = pred (steps_left p).
Proof.
  unfold steps_left, start. destruct (unstarted p) as [|f rest]; [congruence|].
  intros _. cbn [unstarted running]. rewrite List.length_app. cbn. lia.
Qed.

Lemma finish_steps (p : pool) (c : nat) :
  running p <> [] ->
  steps_left (finish (c mod List.length (running p)) p) = pred (steps_left p).
Proof.
  intros H. unfold finish.
  destruct (nth_error_mod (running p) c H) as [f N]. rewrite N.
  unfold steps_left.
  destruct (review_file_fields f
              (mkPool (unstarted p)
                 (remove_nth (c mod List.length (running p)) (running p))
                 (reports p) (out p)))
    as (-> & -> & _).
  cbn [unstarted running]. pose proof (remove_nth_length _ _ _ N). lia.
Qed.

(** every step starts or finishes one thread, until none is left *)
Lemma step_steps (p : pool) (c : nat) :
  steps_left (step c p) = pred (steps_left p).
Proof.
  unfold step.
  destruct (unstarted p) as [|f rest] eqn:U, (running p) as [|g more] eqn:G.
  - unfold steps_left. now rewrite U, G.
  - rewrite <- G. apply finish_steps. congruence.
  - apply start_steps. congruence.
  - destruct c as [|k].
    + apply start_steps. congruence.
    + rewrite <- G. apply finish_steps. congruence.
Qed.

Lemma run_steps (n i : nat) (p : pool) :
  steps_left (run n i p) = steps_left p - n.
Proof.
  revert i p. induction n as [|n IH]; intros i p; cbn [run]; [lia|].
  rewrite IH, step_steps. lia.
Qed.

Lemma run_inv (files : list string) (n i : nat) (p : pool) (done : list string) :
  pool_inv files p done -> exists done', pool_inv files (run n i p) done'.
Proof.
  revert i p done. induction n as [|n IH]; intros i p done H; cbn [run]; [eauto|].
  destruct (step_inv files p done (schedule i) H) as [done' H'].
  apply (IH _ _ _ H').
Qed.

(** [run_project_review] returns, and returns the entries of the files
    whose pipeline returned, in some order *)
Lemma run_project_review_perm (directory : string) (o : console) :
  exists reports o',
    run_project_review directory o = (Ok reports, o')
    /\ Permutation reports (succeeded (scan_directory directory)).
Proof.
  unfold run_project_review.
  set (files := scan_directory directory).
  set (final := run (2 * List.length files) 0 (mkPool files [] [] o)).
  exists (reports final), (out final). split; [reflexivity|].
  assert (I : pool_inv files (mkPool files [] [] o) []).
  { split; reflexivity. }
  destruct (run_inv files (2 * List.length files) 0 _ _ I) as [done [P Q]].
  fold final in P, Q.
  assert (Z : steps_left final = 0).
  { unfold final. rewrite run_steps. unfold steps_left. cbn. lia. }
  unfold steps_left in Z.
  destruct (unstarted final); [|cbn in Z; lia].
  destruct (running final); [|cbn in Z; lia].
  cbn in P. rewrite app_nil_r in P.
  rewrite Q. unfold succeeded. apply Permutation_flat_map. now symmetry.
Qed.

Lemma succeeded_length (files : list string) :
  List.length (succeeded files) + List.length (filter raised files)
  = List.length files.
Proof.
  induction files as [|f files IH]; [reflexivity|].
  unfold succeeded, raised in *. cbn [flat_map filter].
  destruct (run_review f); cbn; rewrite ?List.length_app; cbn; lia.
Qed.

Lemma succeeded_paths (files : list string) :
  map fst (succeeded files) = filter (fun f => negb (raised f)) files.
Proof.
  induction files as [|f files IH]; [reflexivity|].
  unfold succeeded, raised in *. cbn [flat_map filter].
  destruct (run_review f); cbn; now rewrite <- IH.
Qed.

Lemma succeeded_In (files : list string) (f : string) (r : pyval) :
  In (f, r) (succeeded files) <-> In f files /\ run_review f = Ok r.
Proof.
  unfold succeeded. rewrite in_flat_map. split.
  - intros (g & H1 & H2). destruct (run_review g) as [x|] eqn:X; [|contradiction].
    destruct H2 as [H2|[]]. injection H2 as <- <-. auto.
  - intros [H1 H2]. exists f. rewrite H2. split; [assumption | now left].
Qed.

End Pool.

Section ReviewClaims.
Context {E : ReviewEnv}.

(** C4: [scan_directory] returns exactly the paths of the files below the
    directory whose name ends with one of the nine extensions; the test
    tells upper case from lower case, so a name ending in [.PY] is left
    out. *)
Theorem scan_directory_exact (directory : string) (n : node) (path : string) :
  lookup directory = Some n ->
  (In path (scan_directory directory)
   <-> exists name,
         file_under directory n path name
         /\ exists ext stem,
              In ext [".py"; ".js"; ".ts"; ".java"; ".cpp"; ".c"; ".go"; ".rb"; ".php"]
              /\ name = stem ++ ext)
  /\ (forall stem, is_code_file (stem ++ ".PY") = false).
Proof.
  intros L. split; [|apply upper_case_is_no_code_file].
  unfold scan_directory, os_walk. rewrite L, scan_iff.
  split; intros (name & H1 & H2); exists name; split; try assumption;
    now apply is_code_file_iff.
Qed.

(** C3: for a directory with N discovered files, [run_project_review]
    returns at most N entries, N minus the number of files whose pipeline
    raised; every entry's path is a discovered path, no path appears
    twice, a file whose pipeline returned has exactly one entry, its
    (path, report) pair, and a file whose pipeline raised has none. *)
Theorem run_project_review_entries (directory : string) (n : node) (o : console) :
  lookup directory = Some n ->
  well_formed n = true ->
  exists reports o',
    run_project_review directory o = (Ok reports, o')
    /\ List.length reports <= List.length (scan_directory directory)
    /\ List.length reports
       = List.length (scan_directory directory)
         - List.length (filter raised (scan_directory directory))
    /\ (forall entry, In entry reports -> In (fst entry) (scan_directory directory))
    /\ NoDup (map fst reports)
    /\ (forall f r,
          In f (scan_directory directory) -> run_review f = Ok r ->
          exists l1 l2,
            reports = (l1 ++ (f, r) :: l2)%list
            /\ ~ In f (map fst l1) /\ ~ In f (map fst l2))
    /\ (forall f e,
          In f (scan_directory directory) -> run_review f = Raise e ->
          ~ In f (map fst reports)).
Proof.
  intros L W.
  destruct (run_project_review_perm directory o) as (reports & o' & R & P).
  exists reports, o'. split; [exact R|].
  set (files := scan_directory directory) in *.
  assert (N : NoDup files).
  { unfold files, scan_directory, os_walk. rewrite L. now apply collect_NoDup. }
  pose proof (succeeded_length files) as Len.
  rewrite <- (Permutation_length P) in Len.
  assert (Nr : NoDup (map fst reports)).
  { apply (Permutation_NoDup (Permutation_map fst (Permutation_sym P))).
    rewrite succeeded_paths. now apply NoDup_filter. }
  repeat split.
  - lia.
  - lia.
  - intros [f r] H. apply (Permutation_in _ P) in H.
    apply succeeded_In in H. apply H.
  - exact Nr.
  - intros f r Hf Hr.
    assert (H : In (f, r) reports).
    { apply (Permutation_in _ (Permutation_sym P)). now apply succeeded_In. }
    apply in_split in H as (l1 & l2 & ->). exists l1, l2. split; [reflexivity|].
    rewrite map_app in Nr. cbn [map fst] in Nr.
    apply NoDup_remove_2 in Nr. rewrite in_app_iff in Nr. tauto.
  - intros f e Hf He H.
    apply (Permutation_in _ (Permutation_map fst P)) in H.
    rewrite succeeded_paths in H. apply filter_In in H as [_ H].
    unfold raised in H. rewrite He in H. discriminate.
Qed.

(** C6: when the pipeline raises for one discovered file, every other
    discovered file whose pipeline returns still has its (path, report)
    entry in what [run_project_review] returns. *)
Theorem sibling_reviews_survive (directory failing : string) (e : exn)
  (o : console) :
  In failing (scan_directory directory) ->
  run_review failing = Raise e ->
  exists reports o',
    run_project_review directory o = (Ok reports, o')
    /\ forall f r,
         In f (scan_directory directory) -> run_review f = Ok r ->
         In (f, r) reports.
Proof.
  intros _ _.
  destruct (run_project_review_perm directory o) as (reports & o' & R & P).
  exists reports, o'. split; [exact R|].
  intros f r Hf Hr.
  apply (Permutation_in _ (Permutation_sym P)). now apply succeeded_In.
Qed.

(** C7: for a path that does not exist, [main] prints the "Path not found"
    line holding the path and exits with status 1; when the review is
    interrupted by the user, it exits with status 0. *)
Theorem main_exit_codes (argv0 path : string) (rest : list string) (o : console) :
  (path_exists path = false ->
   main (argv0 :: path :: rest) o
   = (Raise (mkExn (SystemExit 1) "1"), app o [" Path not found: " ++ path])
   /\ exit_status (fst (main (argv0 :: path :: rest) o)) = 1%Z)
  /\ (forall e o',
        path_exists path = true ->
        review_suite path o = (Raise e, o') ->
        is_KeyboardInterrupt e = true ->
        main (argv0 :: path :: rest) o
        = (Raise (mkExn (SystemExit 0) "0"),
           app o' [newline ++ newline ++ "  Review interrupted by user"])
        /\ exit_status (fst (main (argv0 :: path :: rest) o)) = 0%Z).
Proof.
  split.
  - intros X. unfold main. rewrite X. cbn. auto.
  - intros e o' X S K. unfold main. rewrite X. cbn [negb]. rewrite S, K.
    cbn. auto.
Qed.

End ReviewClaims.

Import Fixtures.

Example scan_demo_tree (review : string -> result pyval) (sched : nat -> nat) :
  scan_directory (E := demo_env review sched) "proj"
  = ["proj/a.py"; "proj/sub/c.go"].
Proof. reflexivity. Qed.

Lemma scan_directory_exact_witness :
  (In "proj/sub/c.go" (scan_directory (E := demo_env flaky_review (fun _ => 0)) "proj")
   <-> exists name,
         file_under "proj" demo_tree "proj/sub/c.go" name
         /\ exists ext stem,
              In ext [".py"; ".js"; ".ts"; ".java"; ".cpp"; ".c"; ".go"; ".rb"; ".php"]
              /\ name = stem ++ ext)
  /\ (forall stem, is_code_file (stem ++ ".PY") = false).
Proof.
  apply (@scan_directory_exact (demo_env flaky_review (fun _ => 0)) "proj"
           demo_tree "proj/sub/c.go").
  reflexivity.
Defined.

Example run_project_review_demo :
  run_project_review (E := demo_env flaky_review (fun i => 2 - i)) "proj" []
  = (Ok [("proj/sub/c.go", PDict [("file", PStr "proj/sub/c.go")])],
     ["Error reviewing proj/a.py: model unreachable"]).
Proof. reflexivity. Qed.

Lemma run_project_review_entries_witness :
  exists reports o',
    run_project_review (E := demo_env flaky_review (fun i => 2 - i)) "proj" []
    = (Ok reports, o')
    /\ List.length reports = 1
    /\ NoDup (map fst reports)
    /\ In ("proj/sub/c.go", PDict [("file", PStr "proj/sub/c.go")]) reports
    /\ ~ In "proj/a.py" (map fst reports).
Proof.
  destruct (@run_project_review_entries (demo_env flaky_review (fun i => 2 - i))
              "proj" demo_tree [] eq_refl eq_refl)
    as (reports & o' & R & _ & Len & _ & N & One & Zero).
  exists reports, o'. repeat split.
  - exact R.
  - exact Len.
  - exact N.
  - destruct (One "proj/sub/c.go" (PDict [("file", PStr "proj/sub/c.go")]))
      as (l1 & l2 & -> & _); [right; left; reflexivity | reflexivity |].
    apply in_elt.
  - apply (Zero "proj/a.py"
             (mkExn (ExceptionSubclass "RuntimeError") "model unreachable"));
      [left; reflexivity | reflexivity].
Defined.

Lemma sibling_reviews_survive_witness :
  exists reports o',
    run_project_review (E := demo_env flaky_review (fun _ => 5)) "proj" []
    = (Ok reports, o')
    /\ In ("proj/sub/c.go", PDict [("file", PStr "proj/sub/c.go")]) reports.
Proof.
  destruct (@sibling_reviews_survive (demo_env flaky_review (fun _ => 5))
              "proj" "proj/a.py"
              (mkExn (ExceptionSubclass "RuntimeError") "model unreachable") []
              (or_introl eq_refl) eq_refl)
    as (reports & o' & R & H).
  exists reports, o'. split; [exact R|].
  apply H; [right; left; reflexivity | reflexivity].
Defined.

Lemma main_exit_codes_witness :
  (main (E := demo_env interrupted_review (fun _ => 0))
     ["review.py"; "missing.py"] []
   = (Raise (mkExn (SystemExit 1) "1"), [" Path not found: missing.py"])
   /\ exit_status
        (fst (main (E := demo_env interrupted_review (fun _ => 0))
                ["review.py"; "missing.py"] [])) = 1%Z)
  /\ exit_status
       (fst (main (E := demo_env interrupted_review (fun _ => 0))
               ["review.py"; "buggy.py"] [])) = 0%Z.
Proof.
  split.
  - apply (@main_exit_codes (demo_env interrupted_review (fun _ => 0))
             "review.py" "missing.py" [] []).
    reflexivity.
  - apply (proj2 (@main_exit_codes (demo_env interrupted_review (fun _ => 0))
                    "review.py" "buggy.py" [] []) interrupt []);
      reflexivity.
Defined.

(** the single-file and the directory mode end with status 0 when nothing
    is raised *)
Example main_demo_file :
  main (E := demo_env flaky_review (fun _ => 0)) ["review.py"; "buggy.py"] []
  = (Ok tt,
     ["summary";
      " Reports saved:" ++ newline ++ "   - JSON: reports/report.json"
        ++ newline ++ "   - Markdown: reports/report.md"]).
Proof. reflexivity. Qed.

Example main_demo_directory :
  main (E := demo_env flaky_review (fun _ => 0)) ["review.py"; "proj"] []
  = (Ok tt,
     ["Error reviewing proj/a.py: model unreachable";
      newline ++ "Project review complete. Reports generated for the following files:";
      " - proj/sub/c.go"]).
Proof. reflexivity. Qed.

End ReviewFacts.

(** ** More of [DeepSeekAgent]: replies that are no text, what is raised,
    and [__init__] *)

Module AgentMore.
Import PyStr PyStrFacts Py Agent AgentFacts Fixtures.
Local Open Scope py_scope.

(** *** What the library calls raise *)

Lemma getitem_key_ordinary (v : pyval) (key : string) (e : exn) :
  getitem_key v key = Raise e -> ordinary e = true.
Proof.
  destruct v; cbn; try (intros H; injection H as <-; reflexivity).
  destruct (assoc key d); [discriminate|].
  intros H; injection H as <-; reflexivity.
Qed.

Lemma getitem_0_ordinary (v : pyval) (e : exn) :
  getitem_0 v = Raise e -> ordinary e = true.
Proof.
  destruct v as [| | | |[|c s]|[|x l]|]; cbn;
    try discriminate; intros H; injection H as <-; reflexivity.
Qed.

Lemma content_of_ordinary (self : DeepSeekAgent) (response : pyval) (e : exn) :
  content_of self response = Raise e -> ordinary e = true.
Proof.
  unfold content_of, bind. destruct (use_openai self).
  - destruct (getitem_key response "choices") as [c|x] eqn:A;
      [|intros H; injection H as <-; eauto using getitem_key_ordinary].
    destruct (getitem_0 c) as [c0|x] eqn:B;
      [|intros H; injection H as <-; eauto using getitem_0_ordinary].
    destruct (getitem_key c0 "message") as [m|x] eqn:D;
      [|intros H; injection H as <-; eauto using getitem_key_ordinary].
    apply getitem_key_ordinary.
  - destruct (getitem_key response "message") as [m|x] eqn:D;
      [|intros H; injection H as <-; eauto using getitem_key_ordinary].
    apply getitem_key_ordinary.
Qed.

Lemma fenced_block_raises_ordinary (content : pyval) (marker : string) (e : exn) :
  fenced_block content marker = Raise e -> ordinary e = true.
Proof.
  unfold fenced_block, bind, py_split, index.
  destruct content; try (intros H; injection H as <-; reflexivity).
  destruct (nth_error (split marker s) 1);
    [|intros H; injection H as <-; reflexivity].
  destruct (nth_error (split fence s0) 0);
    [discriminate | intros H; injection H as <-; reflexivity].
Qed.

Lemma extract_raises_ordinary (content : pyval) (e : exn) :
  extract content = Raise e -> ordinary e = true.
Proof.
  unfold extract, bind.
  destruct (py_in fence_json content) as [[|]|x] eqn:A.
  - apply fenced_block_raises_ordinary.
  - destruct (py_in fence content) as [[|]|y] eqn:B.
    + apply fenced_block_raises_ordinary.
    + discriminate.
    + intros H; injection H as <-.
      destruct content; cbn in B; try discriminate; injection B as <-; reflexivity.
  - intros H; injection H as <-.
    destruct content; cbn in A; try discriminate; injection A as <-; reflexivity.
Qed.

(** a value other than a [str] passes lines 90-93 unchanged or not at all *)
Lemma extract_not_text (content : pyval) (c : pyval) :
  (forall s, content <> PStr s) -> extract content = Ok c -> c = content.
Proof.
  intros N. unfold extract, bind.
  destruct (py_in fence_json content) as [[|]|x] eqn:A; try discriminate.
  - unfold fenced_block, bind, py_split.
    destruct content; try discriminate. now destruct (N s).
  - destruct (py_in fence content) as [[|]|y] eqn:B; try discriminate.
    + unfold fenced_block, bind, py_split.
      destruct content; try discriminate. now destruct (N s).
    + intros H; now injection H.
Qed.

Section More.
Context {R : Runtime}.

Lemma json_loads_val_not_text (content : pyval) :
  (forall s, content <> PStr s) ->
  exists e, json_loads_val content = Raise e /\ ordinary e = true.
Proof.
  intros N. destruct content; cbn; eauto. now destruct (N s).
Qed.

Lemma fetch_content_backend (self : DeepSeekAgent) (prompt : string) :
  fetch_content self prompt
  = (response <- query_backend self prompt ;; content_of self response).
Proof.
  unfold fetch_content, query_backend, content_of.
  destruct (use_openai self); reflexivity.
Qed.

(** what [query] does with an exception the last handler takes *)
Lemma handled (e : exn) (content : option pyval) (o : console) :
  ordinary e = true ->
  (if is_JSONDecodeError e then except_JSONDecodeError e content
   else if is_Exception e then except_Exception e else raise e) o
  = (Ok (PDict [("error", PStr (exn_str e))]),
     app o [" Error querying model: " ++ exn_str e]).
Proof.
  unfold ordinary. intros H. apply andb_true_iff in H as [X D].
  apply negb_true_iff in D. now rewrite D, X.
Qed.

End More.

Section MoreQuery.
Context {R : Runtime}.

(** X1: a reply whose content is no text (a null, a number, a list, a
    mapping) makes [query] with [parse_json=True] return an error record
    with the message of the type error; it raises nothing. *)
Theorem query_reply_not_text (self : DeepSeekAgent) (prompt : string)
  (content : pyval) (o : console) :
  fetch_content self prompt = Ok content ->
  (forall s, content <> PStr s) ->
  exists msg,
    query self prompt true o
    = (Ok (PDict [("error", PStr msg)]), app o [" Error querying model: " ++ msg]).
Proof.
  intros F N. unfold query, try_suite. rewrite F.
  destruct (extract content) as [c|e] eqn:X.
  - apply (extract_not_text _ _ N) in X. subst c.
    destruct (json_loads_val_not_text content N) as (e & -> & H).
    exists (exn_str e). now apply handled.
  - exists (exn_str e). apply handled. now apply extract_raises_ordinary in X.
Qed.

(** X2: when the backend answers and the answer lacks the content (a
    missing key, an empty list of choices, a value of the wrong type),
    [query] returns the error record of that failure; for a mapping
    without the first key read, the message is the quoted key. *)
Theorem query_unreadable_response (self : DeepSeekAgent) (prompt : string)
  (response : pyval) (e : exn) (parse_json : bool) (o : console) :
  query_backend self prompt = Ok response ->
  content_of self response = Raise e ->
  query self prompt parse_json o
  = (Ok (PDict [("error", PStr (exn_str e))]),
     app o [" Error querying model: " ++ exn_str e])
  /\ (forall d, response = PDict d ->
                use_openai self = false -> assoc "message" d = None ->
                exn_str e = "'message'")
  /\ (forall d, response = PDict d ->
                use_openai self = true -> assoc "choices" d = None ->
                exn_str e = "'choices'").
Proof.
  intros B C. split; [|split].
  - unfold query, try_suite. rewrite fetch_content_backend, B. cbn [bind].
    rewrite C. apply handled. now apply content_of_ordinary in C.
  - intros d -> U A. unfold content_of in C. rewrite U in C. cbn in C.
    rewrite A in C. now injection C as <-.
  - intros d -> U A. unfold content_of in C. rewrite U in C. cbn in C.
    rewrite A in C. now injection C as <-.
Qed.

(** X3: a JSON decode error raised by the backend call itself reaches the
    first handler before [content] is assigned: [query] prints the first
    diagnostic line and raises [UnboundLocalError], whatever [parse_json]
    is. *)
Theorem query_backend_decode_error (self : DeepSeekAgent) (prompt : string)
  (e : exn) (parse_json : bool) (o : console) :
  query_backend self prompt = Raise e ->
  is_JSONDecodeError e = true ->
  query self prompt parse_json o
  = (Raise (mkExn UnboundLocalError
              "cannot access local variable 'content' where it is not associated with a value"),
     app o [" JSON parsing error: " ++ exn_str e]).
Proof.
  intros B D. unfold query, try_suite.
  rewrite (query_backend_raises _ _ _ B), D. reflexivity.
Qed.

(** X4: [query] raises in three cases only: the backend call raised what
    is no instance of [Exception] (it is passed on), the backend call
    raised a JSON decode error (an [UnboundLocalError] results), or the
    decoder raised what is no instance of [Exception]. *)
Theorem query_raises_only (self : DeepSeekAgent) (prompt : string)
  (parse_json : bool) (o o' : console) (e' : exn) :
  query self prompt parse_json o = (Raise e', o') ->
  (query_backend self prompt = Raise e' /\ is_Exception e' = false)
  \/ (exists e, query_backend self prompt = Raise e
                /\ is_JSONDecodeError e = true
                /\ exn_cls e' = UnboundLocalError)
  \/ (exists s, parse_json = true /\ json_loads s = Raise e'
                /\ is_Exception e' = false).
Proof.
  unfold query, try_suite. rewrite fetch_content_backend.
  destruct (query_backend self prompt) as [response|e] eqn:B; cbn [bind].
  - destruct (content_of self response) as [content|e] eqn:C.
    + destruct parse_json; [|discriminate].
      destruct (extract content) as [c|e] eqn:X.
      * destruct c as [| | | |s| |];
          try (cbn [json_loads_val]; rewrite handled by reflexivity; discriminate).
        cbn [json_loads_val].
        destruct (json_loads s) as [v|e] eqn:J; [discriminate|].
        destruct (is_JSONDecodeError e) eqn:D; [discriminate|].
        destruct (is_Exception e) eqn:Y; [discriminate|].
        intros H. injection H as <- <-. right. right. exists s. auto.
      * rewrite handled by (now apply extract_raises_ordinary in X). discriminate.
    + rewrite handled by (now apply content_of_ordinary in C). discriminate.
  - destruct (is_JSONDecodeError e) eqn:D.
    + intros H. injection H as <- _. right. left. exists e. auto.
    + destruct (is_Exception e) eqn:Y; [discriminate|].
      intros H. injection H as <- _. left. auto.
Qed.

(** X5: on the hosted path an HTTP error status wins over the body:
    when [raise_for_status] raises, [query] returns the error record of
    that exception even if the body would decode, and it posts to
    [base_url/chat/completions] for the model [gpt-4] with the agent's
    temperature and token limit. *)
Theorem query_http_error_status (self : DeepSeekAgent) (prompt : string)
  (response : http_response) (e : exn) (parse_json : bool) (o : console) :
  use_openai self = true ->
  requests_post (py_str (openai_base_url self) ++ "/chat/completions")
    (PDict [("Authorization", PStr ("Bearer " ++ py_str (openai_api_key self)));
            ("Content-Type", PStr "application/json")])
    (PDict [("model", PStr "gpt-4");
            ("messages",
              PList [PDict [("role", PStr "user"); ("content", PStr prompt)]]);
            ("temperature", temperature self);
            ("max_tokens", max_tokens self)])
  = Ok response ->
  raise_for_status response = Raise e ->
  ordinary e = true ->
  query self prompt parse_json o
  = (Ok (PDict [("error", PStr (exn_str e))]),
     app o [" Error querying model: " ++ exn_str e]).
Proof.
  intros U P S H. unfold query, try_suite, fetch_content. rewrite U.
  unfold query_openai. cbv zeta. rewrite P. cbn [bind]. rewrite S. cbn [bind].
  now apply handled.
Qed.

(** X6: the settings that are never read: [query] gives the same result
    for two agents that agree on [use_openai], the temperature and the
    token limit, on the hosted URL and key when [use_openai] holds, and on
    the model name when it does not.  The daemon URL never matters, and on
    the hosted path neither does the model name. *)
Theorem query_ignores_unused_settings (self1 self2 : DeepSeekAgent)
  (prompt : string) (parse_json : bool) (o : console) :
  use_openai self1 = use_openai self2 ->
  temperature self1 = temperature self2 ->
  max_tokens self1 = max_tokens self2 ->
  (use_openai self1 = true ->
   openai_base_url self1 = openai_base_url self2
   /\ openai_api_key self1 = openai_api_key self2) ->
  (use_openai self1 = false -> model_name self1 = model_name self2) ->
  query self1 prompt parse_json o = query self2 prompt parse_json o.
Proof.
  destruct self1 as [u1 b1 k1 l1 m1 t1 x1], self2 as [u2 b2 k2 l2 m2 t2 x2].
  cbn. intros <- <- <- H1 H2.
  unfold query, try_suite, fetch_content, query_openai, query_ollama. cbn.
  destruct u1.
  - destruct (H1 eq_refl) as [<- <-]. reflexivity.
  - rewrite (H2 eq_refl). reflexivity.
Qed.

(** X7: a template that cannot be formatted makes [detect_bugs],
    [suggest_optimizations] and [generate_summary] raise the formatting
    error: it is raised before [query] is entered, so no error record is
    made of it and nothing is printed. *)
Theorem template_errors_propagate (self : DeepSeekAgent)
  (code language prompt_template : string) (bug_count opt_count : Z)
  (e : exn) (o : console) :
  str_format prompt_template [("code", PStr code); ("language", PStr language)]
  = Raise e ->
  str_format prompt_template
    [("bug_count", PInt bug_count); ("opt_count", PInt opt_count)] = Raise e ->
  detect_bugs self code language prompt_template o = (Raise e, o)
  /\ suggest_optimizations self code language prompt_template o = (Raise e, o)
  /\ generate_summary self bug_count opt_count prompt_template o = (Raise e, o).
Proof.
  intros F G.
  unfold detect_bugs, suggest_optimizations, generate_summary, mbind, lift.
  rewrite F, G. auto.
Qed.

End MoreQuery.

(** *** [__init__] *)

Lemma py_get_mapping (d : list (string * pyval)) (key : string) (default : pyval) :
  exists v, py_get (PDict d) key default = Ok v.
Proof. cbn. destruct (assoc key d); eauto. Qed.

Section MoreInit.
Context {C : ConfigFiles}.

(** X8: a new agent uses the hosted API exactly when the configuration
    file exists and holds a truthy [openai.api_key]; without a file, or
    with no key, an empty key or a null key, it uses the local daemon. *)
Theorem init_use_openai_iff (config_path : string) (o o' : console)
  (a : attributes) :
  init config_path o = (Ok a, o') ->
  (attr_use_openai a = true
   <-> config_exists config_path = true
       /\ exists config openai key,
            yaml_load config_path = Ok config
            /\ py_get config "openai" (PDict []) = Ok openai
            /\ py_get openai "api_key" PNone = Ok key
            /\ truthy key = true).
Proof.
  unfold init. destruct (config_exists config_path); cbn [negb].
  - unfold lift, bind.
    destruct (yaml_load config_path) as [config|] eqn:Y; [|discriminate].
    destruct (py_get config "openai" (PDict [])) as [openai|] eqn:O; [|discriminate].
    destruct (py_get openai "base_url" PNone) as [base|]; [|discriminate].
    destruct (py_get openai "api_key" PNone) as [key|] eqn:K; [|discriminate].
    destruct (py_get config "ollama" (PDict [])) as [ollama|]; [|discriminate].
    destruct (py_get ollama "base_url" default_ollama_base_url) as [url|];
      [|discriminate].
    destruct (getitem_key config "model") as [model|]; [|discriminate].
    destruct (getitem_key model "name") as [name|]; [|discriminate].
    destruct (getitem_key model "temperature") as [temp|]; [|discriminate].
    destruct (getitem_key model "max_tokens") as [tokens|]; [|discriminate].
    intros H. injection H as <- <-. cbn [attr_use_openai]. split.
    + intros T. split; [reflexivity|]. exists config, openai, key. auto.
    + intros (_ & config' & openai' & key' & Y' & O' & K' & T).
      injection Y' as <-. rewrite O in O'. injection O' as <-.
      rewrite K in K'. injection K' as <-. exact T.
  - intros H. cbn in H. injection H as <- <-. cbn. split; [discriminate|].
    intros [X _]. discriminate.
Qed.

(** X9: with a configuration file that has no [model] section,
    [__init__] raises and no agent is made: the defaults of the branch
    without a file are not used.  When the file has neither an [openai]
    nor an [ollama] section either, the exception is [KeyError('model')]. *)
Theorem init_missing_model_section (config_path : string) (o : console)
  (d : list (string * pyval)) :
  config_exists config_path = true ->
  yaml_load config_path = Ok (PDict d) ->
  assoc "model" d = None ->
  exists e,
    init config_path o = (Raise e, o)
    /\ (assoc "openai" d = None -> assoc "ollama" d = None ->
        e = mkExn KeyError "'model'").
Proof.
  intros X Y M.
  assert (G : getitem_key (PDict d) "model" = Raise (mkExn KeyError "'model'")).
  { cbn. now rewrite M. }
  unfold init. rewrite X. cbn [negb]. unfold lift. rewrite Y. unfold bind.
  destruct (py_get_mapping d "openai" (PDict [])) as [openai O].
  destruct (py_get_mapping d "ollama" (PDict [])) as [ollama L].
  rewrite O, L, G.
  destruct (py_get openai "base_url" PNone) as [base|e3] eqn:B.
  - destruct (py_get openai "api_key" PNone) as [key|e4] eqn:K.
    + destruct (py_get ollama "base_url" default_ollama_base_url) as [url|e5] eqn:U.
      * eexists. split; reflexivity.
      * eexists. split; [reflexivity|]. intros A1 A2.
        cbn in L. rewrite A2 in L. injection L as <-. discriminate.
    + eexists. split; [reflexivity|]. intros A1 A2.
      cbn in O. rewrite A1 in O. injection O as <-. discriminate.
  - eexists. split; [reflexivity|]. intros A1 A2.
    cbn in O. rewrite A1 in O. injection O as <-. discriminate.
Qed.

(** X10: a configuration file that does not load as a mapping (an empty
    file loads as [None]) makes [__init__] raise the [AttributeError] of
    the first [config.get]. *)
Theorem init_config_not_mapping (config_path : string) (o : console)
  (config : pyval) :
  config_exists config_path = true ->
  yaml_load config_path = Ok config ->
  (forall d, config <> PDict d) ->
  init config_path o
  = (Raise (mkExn AttributeError
              ("'" ++ type_name config ++ "' object has no attribute 'get'")),
     o).
Proof.
  intros X Y N. unfold init. rewrite X. cbn [negb]. unfold lift. rewrite Y.
  destruct config; try reflexivity. now destruct (N d).
Qed.

(** X11: without a configuration file [__init__] prints the warning and
    makes an agent whose every query goes to the local daemon, for the
    model [deepseek-r1:latest] with temperature 0.1 and at most 2048
    tokens; the two [openai] attributes stay unassigned. *)
Theorem init_without_file_queries_daemon (config_path : string) (o : console) :
  config_exists config_path = false ->
  exists a,
    init config_path o
    = (Ok a,
       app o ["Warning: Configuration file '" ++ config_path
                ++ "' not found. Using default settings."])
    /\ attr_openai_base_url a = None
    /\ attr_openai_api_key a = None
    /\ forall (R : Runtime) (prompt : string),
         query_backend (agent_of a) prompt
         = ollama_chat (PStr "deepseek-r1:latest")
             (PList [PDict [("role", PStr "user"); ("content", PStr prompt)]])
             (PDict [("temperature", PFloat 4591870180066957722);
                     ("num_predict", PInt 2048)]).
Proof.
  intros X. unfold init. rewrite X. cbn [negb].
  eexists. split; [reflexivity|]. repeat split.
Qed.

End MoreInit.

(** *** The properties above on inputs *)

Lemma query_reply_not_text_witness :
  exists msg,
    query (R := scripted_runtime
                  (Ok (PDict [("message", PDict [("content", PNone)])])))
      default_agent "review" true []
    = (Ok (PDict [("error", PStr msg)]), [" Error querying model: " ++ msg]).
Proof.
  apply (@query_reply_not_text
           (scripted_runtime (Ok (PDict [("message", PDict [("content", PNone)])])))
           default_agent "review" PNone []);
    [reflexivity | discriminate].
Defined.

Lemma query_unreadable_response_witness :
  query (R := scripted_runtime (Ok (PDict [("done", PBool true)])))
    default_agent "review" true []
  = (Ok (PDict [("error", PStr "'message'")]),
     [" Error querying model: 'message'"]).
Proof.
  apply (proj1 (@query_unreadable_response
                  (scripted_runtime (Ok (PDict [("done", PBool true)])))
                  default_agent "review" (PDict [("done", PBool true)])
                  (mkExn KeyError "'message'") true [] eq_refl eq_refl)).
Defined.

Lemma query_backend_decode_error_witness :
  query (R := scripted_runtime (Raise (mkExn JSONDecodeError "Expecting value")))
    default_agent "review" false []
  = (Raise (mkExn UnboundLocalError
              "cannot access local variable 'content' where it is not associated with a value"),
     [" JSON parsing error: Expecting value"]).
Proof.
  apply (@query_backend_decode_error
           (scripted_runtime (Raise (mkExn JSONDecodeError "Expecting value")))
           default_agent "review" (mkExn JSONDecodeError "Expecting value")
           false []); reflexivity.
Defined.

Lemma query_raises_only_witness :
  (query_backend (R := scripted_runtime (Raise interrupt)) default_agent "review"
   = Raise interrupt /\ is_Exception interrupt = false)
  \/ (exists e,
        query_backend (R := scripted_runtime (Raise interrupt)) default_agent
          "review" = Raise e
        /\ is_JSONDecodeError e = true
        /\ exn_cls interrupt = UnboundLocalError)
  \/ (exists s, true = true
                /\ json_loads (Runtime := scripted_runtime (Raise interrupt)) s
                   = Raise interrupt
                /\ is_Exception interrupt = false).
Proof.
  apply (@query_raises_only (scripted_runtime (Raise interrupt)) default_agent
           "review" true [] [] interrupt).
  reflexivity.
Defined.

Lemma query_http_error_status_witness :
  query (R := hosted_runtime
                (Ok (mkResponse
                       (Raise (mkExn (ExceptionSubclass "HTTPError")
                                 "401 Client Error: Unauthorized"))
                       (Ok (PDict [("choices", PList [])])))))
    hosted_agent "review" true []
  = (Ok (PDict [("error", PStr "401 Client Error: Unauthorized")]),
     [" Error querying model: 401 Client Error: Unauthorized"]).
Proof.
  apply (@query_http_error_status
           (hosted_runtime
              (Ok (mkResponse
                     (Raise (mkExn (ExceptionSubclass "HTTPError")
                               "401 Client Error: Unauthorized"))
                     (Ok (PDict [("choices", PList [])])))))
           hosted_agent "review"
           (mkResponse
              (Raise (mkExn (ExceptionSubclass "HTTPError")
                        "401 Client Error: Unauthorized"))
              (Ok (PDict [("choices", PList [])])))
           (mkExn (ExceptionSubclass "HTTPError") "401 Client Error: Unauthorized")
           true []); reflexivity.
Defined.

Lemma query_ignores_unused_settings_witness :
  query (R := scripted_runtime (says chatty_text)) default_agent "review" true []
  = query (R := scripted_runtime (says chatty_text))
      (mkAgent false (PStr "https://api.example.com/v1") (PStr "sk-test")
         (PStr "http://gpu-box:11434") (PStr "deepseek-r1:latest")
         (PFloat 4591870180066957722) (PInt 2048))
      "review" true [].
Proof.
  apply (@query_ignores_unused_settings (scripted_runtime (says chatty_text))
           default_agent
           (mkAgent false (PStr "https://api.example.com/v1") (PStr "sk-test")
              (PStr "http://gpu-box:11434") (PStr "deepseek-r1:latest")
              (PFloat 4591870180066957722) (PInt 2048))
           "review" true []);
    try reflexivity; discriminate.
Defined.

Lemma template_errors_propagate_witness :
  detect_bugs (R := unformattable_runtime) default_agent "x = 1" "python"
    "Rate {severity} of {code}" []
  = (Raise (mkExn KeyError "'severity'"), [])
  /\ suggest_optimizations (R := unformattable_runtime) default_agent "x = 1"
       "python" "Rate {severity} of {code}" []
     = (Raise (mkExn KeyError "'severity'"), [])
  /\ generate_summary (R := unformattable_runtime) default_agent 2 3
       "Rate {severity} of {code}" []
     = (Raise (mkExn KeyError "'severity'"), []).
Proof.
  apply (@template_errors_propagate unformattable_runtime default_agent
           "x = 1" "python" "Rate {severity} of {code}" 2 3
           (mkExn KeyError "'severity'") []); reflexivity.
Defined.

Lemma init_use_openai_iff_witness :
  exists a,
    init (C := config_with hosted_config) "config.yaml" [] = (Ok a, [])
    /\ (attr_use_openai a = true
        <-> config_exists (ConfigFiles := config_with hosted_config) "config.yaml"
            = true
            /\ exists config openai key,
                 yaml_load (ConfigFiles := config_with hosted_config) "config.yaml"
                 = Ok config
                 /\ py_get config "openai" (PDict []) = Ok openai
                 /\ py_get openai "api_key" PNone = Ok key
                 /\ truthy key = true).
Proof.
  eexists. split; [reflexivity|].
  apply (@init_use_openai_iff (config_with hosted_config) "config.yaml" [] []).
  reflexivity.
Defined.

Lemma init_missing_model_section_witness :
  exists e,
    init (C := config_with modelless_config) "config.yaml" [] = (Raise e, [])
    /\ (assoc "openai"
          [("ollama", PDict [("base_url", PStr "http://gpu-box:11434")])] = None ->
        assoc "ollama"
          [("ollama", PDict [("base_url", PStr "http://gpu-box:11434")])] = None ->
        e = mkExn KeyError "'model'").
Proof.
  apply (@init_missing_model_section (config_with modelless_config)
           "config.yaml" []
           [("ollama", PDict [("base_url", PStr "http://gpu-box:11434")])]);
    reflexivity.
Defined.

Lemma init_config_not_mapping_witness :
  init (C := config_with PNone) "config.yaml" []
  = (Raise (mkExn AttributeError "'NoneType' object has no attribute 'get'"), []).
Proof.
  apply (@init_config_not_mapping (config_with PNone) "config.yaml" [] PNone);
    [reflexivity | reflexivity | discriminate].
Defined.

Lemma init_without_file_queries_daemon_witness :
  exists a,
    init (C := no_config) "config.yaml" []
    = (Ok a,
       ["Warning: Configuration file 'config.yaml' not found. Using default settings."])
    /\ attr_openai_base_url a = None
    /\ attr_openai_api_key a = None
    /\ forall (R : Runtime) (prompt : string),
         query_backend (agent_of a) prompt
         = ollama_chat (PStr "deepseek-r1:latest")
             (PList [PDict [("role", PStr "user"); ("content", PStr prompt)]])
             (PDict [("temperature", PFloat 4591870180066957722);
                     ("num_predict", PInt 2048)]).
Proof.
  apply (@init_without_file_queries_daemon no_config "config.yaml" []).
  reflexivity.
Defined.

End AgentMore.

(** ** More of [examples/review.py]: the console, the order of the result
    and the exits of [main] *)

Module ReviewMore.
Import PyStr PyStrFacts Py Review ReviewFacts Fixtures.
Local Open Scope py_scope.

Section MorePool.
Context {E : ReviewEnv}.

Lemma error_lines_app (a b : list string) :
  error_lines (a ++ b) = (error_lines a ++ error_lines b)%list.
Proof. apply flat_map_app. Qed.

(** what a worker leaves behind *)
Lemma review_file_eq (f : string) (p : pool) :
  review_file f p
  = mkPool (unstarted p) (running p)
      (reports p ++ succeeded [f]) (out p ++ error_lines [f])%list.
Proof.
  unfold review_file, succeeded, error_lines. cbn [flat_map].
  destruct (run_review f) as [r|e]; cbn; rewrite ?app_nil_r.
  - now destruct p.
  - destruct (is_Exception e); cbn; rewrite ?app_nil_r; now destruct p.
Qed.






(** X13: when no file is discovered (an empty directory, one without
    source files, a path that is no directory) [run_project_review]
    returns the empty list and prints nothing. *)
Theorem run_project_review_nothing_found (directory : string) (o : console) :
  scan_directory directory = [] ->
  run_project_review directory o = (Ok [], o).
Proof.
  intros H. unfold run_project_review. rewrite H. reflexivity.
Qed.

Lemma run_add (a b i : nat) (p : pool) :
  run (a + b) i p = run b (a + i) (run a i p).
Proof.
  revert i p. induction a as [|a IH]; intros i p; [reflexivity|].
  cbn [run Nat.add]. rewrite IH. f_equal. lia.
Qed.

Section InOrder.
Hypothesis in_order : forall i, schedule i = 0.

Lemma run_starts (u r : list string) (rep : list (string * pyval))
  (o : console) (i : nat) :
  run (List.length u) i (mkPool u r rep o) = mkPool [] (r ++ u) rep o.
Proof.
  revert r i. induction u as [|f u IH]; intros r i.
  - cbn. now rewrite app_nil_r.
  - cbn [List.length run]. rewrite in_order.
    assert (S : step 0 (mkPool (f :: u) r rep o) = mkPool u (r ++ [f]) rep o).
    { unfold step. cbn. now destruct r. }
    rewrite S, IH, <- app_assoc. reflexivity.
Qed.

Lemma run_finishes (r : list string) (rep : list (string * pyval))
  (o : console) (i : nat) :
  run (List.length r) i (mkPool [] r rep o)
  = mkPool [] [] (rep ++ succeeded r) (o ++ error_lines r)%list.
Proof.
  revert rep o i. induction r as [|f r IH]; intros rep o i.
  - cbn. now rewrite !app_nil_r.
  - cbn [List.length run]. rewrite in_order.
    assert (S : step 0 (mkPool [] (f :: r) rep o)
                = mkPool [] r (rep ++ succeeded [f]) (o ++ error_lines [f])%list).
    { unfold step, finish. cbn [unstarted running].
      rewrite Nat.Div0.mod_0_l. cbn [nth_error remove_nth].
      now rewrite review_file_eq. }
    rewrite S, IH.
    change (f :: r) with ([f] ++ r)%list.
    now rewrite succeeded_app, error_lines_app, !app_assoc.
Qed.

(** X14: when every started thread gets to finish in the order of the
    starts, the entries come in the order of discovery, and so do the
    error lines. *)
Theorem run_project_review_in_order (directory : string) (o : console) :
  run_project_review directory o
  = (Ok (succeeded (scan_directory directory)),
     app o (error_lines (scan_directory directory))).
Proof.
  unfold run_project_review.
  set (files := scan_directory directory).
  replace (2 * List.length files) with (List.length files + List.length files)
    by lia.
  rewrite run_add, run_starts. cbn [app]. rewrite run_finishes. reflexivity.
Qed.

End InOrder.

End MorePool.

Section MoreScript.
Context {E : ReviewEnv}.

(** X15: a path that names no directory (nothing, a regular file, a
    special file) gives the empty list: [os.walk] yields nothing and
    [scan_directory] raises nothing. *)
Theorem scan_directory_not_a_directory (directory : string) :
  (forall d entries, lookup directory <> Some (Dir d entries)) ->
  scan_directory directory = [].
Proof.
  intros N. unfold scan_directory, os_walk.
  destruct (lookup directory) as [[name|name|d entries]|]; try reflexivity.
  now destruct (N d entries).
Qed.

(** X16: on a tree whose names are as a file system has them,
    [scan_directory] returns no path twice. *)
Theorem scan_directory_no_duplicates (directory : string) (n : node) :
  lookup directory = Some n ->
  well_formed n = true ->
  NoDup (scan_directory directory).
Proof.
  intros L W. unfold scan_directory, os_walk. rewrite L.
  now apply collect_NoDup.
Qed.

(** X17: the order of the result is top-down: first the matching files of
    the directory itself, in the order the directory lists them, then what
    each subdirectory gives, in the order the directory lists the
    subdirectories. *)
Theorem scan_directory_top_down (directory d : string) (entries : list node) :
  lookup directory = Some (Dir d entries) ->
  scan_directory directory
  = (map (path_join directory) (filter is_code_file (filenames entries))
       ++ flat_map (below directory) entries)%list.
Proof.
  intros L. unfold scan_directory, os_walk. rewrite L.
  apply collect_walk_dir.
Qed.

(** X18: every path returned starts with the directory that was given,
    followed by a separator unless the directory is empty or ends with
    one. *)
Theorem scan_directory_under_directory (directory : string) (n : node)
  (path : string) :
  lookup directory = Some n ->
  well_formed n = true ->
  In path (scan_directory directory) ->
  PyStr.startswith (dir_prefix directory) path = true.
Proof.
  intros L W. unfold scan_directory, os_walk. rewrite L. intros H.
  apply (collect_shape _ W) in H as [x ->]. apply startswith_app.
Qed.

Lemma print_each (entries : list (string * pyval)) :
  forall (m : M unit) (o o1 : console),
    m o = (Ok tt, o1) ->
    fold_left (fun (m : M unit) (entry : string * pyval) =>
                 m ;;; print (" - " ++ fst entry)) entries m o
    = (Ok tt, app o1 (map (fun entry => " - " ++ fst entry) entries)).
Proof.
  induction entries as [|x entries IH]; intros m o o1 H.
  - cbn. now rewrite app_nil_r.
  - cbn [fold_left map]. rewrite (IH _ o (app o1 [" - " ++ fst x])).
    + now rewrite <- app_assoc.
    + unfold mbind, print. now rewrite H.
Qed.

(** X19: with fewer than two arguments [main] prints the two usage lines
    and exits with status 1. *)
Theorem main_usage (argv : list string) (o : console) :
  List.length argv < 2 ->
  main argv o
  = (Raise (mkExn (SystemExit 1) "1"),
     app o [" Usage: python examples/review.py <file_or_directory_path>";
            "Example: python examples/review.py test_samples/buggy_code.py"])
  /\ exit_status (fst (main argv o)) = 1%Z.
Proof.
  intros H. destruct argv as [|a [|b rest]]; [| |cbn in H; lia];
    cbn; rewrite <- app_assoc; auto.
Qed.

(** X20: a path that exists and is neither a regular file nor a directory
    makes [main] print the "Invalid path" line and exit with status 1. *)
Theorem main_invalid_path (argv0 path name : string) (rest : list string)
  (o : console) :
  lookup path = Some (Special name) ->
  main (argv0 :: path :: rest) o
  = (Raise (mkExn (SystemExit 1) "1"),
     app o [" Invalid path. Please provide a file or directory."])
  /\ exit_status (fst (main (argv0 :: path :: rest) o)) = 1%Z.
Proof.
  intros L. unfold main, path_exists, review_suite, isfile, isdir.
  rewrite L. cbn. auto.
Qed.

(** X21: when the review raises an instance of [Exception], [main] prints
    the "Error during review" line with the message after what the review
    printed, and exits with status 1. *)
Theorem main_review_error (argv0 path : string) (rest : list string)
  (o o' : console) (e : exn) :
  path_exists path = true ->
  review_suite path o = (Raise e, o') ->
  is_Exception e = true ->
  main (argv0 :: path :: rest) o
  = (Raise (mkExn (SystemExit 1) "1"),
     app o' [newline ++ " Error during review: " ++ exn_str e])
  /\ exit_status (fst (main (argv0 :: path :: rest) o)) = 1%Z.
Proof.
  intros X S Y. unfold main. rewrite X. cbn [negb]. rewrite S.
  assert (K : is_KeyboardInterrupt e = false).
  { unfold is_KeyboardInterrupt, is_Exception in *.
    destruct (exn_cls e); congruence. }
  rewrite K, Y. cbn. auto.
Qed.

(** X22: for a directory [main] ends with status 0 whatever the pipelines
    of its files do: after what the workers printed it prints the
    "Project review complete" line and one line for each entry, in the
    order of the returned list. *)
Theorem main_directory_mode (argv0 path : string) (rest : list string)
  (o : console) :
  isdir path = true ->
  exists reports o',
    run_project_review path o = (Ok reports, o')
    /\ main (argv0 :: path :: rest) o
       = (Ok tt,
          (o' ++ (newline
                    ++ "Project review complete. Reports generated for the following files:")%string
              :: map (fun entry => (" - " ++ fst entry)%string) reports)%list)
    /\ exit_status (fst (main (argv0 :: path :: rest) o)) = 0%Z.
Proof.
  intros D.
  destruct (run_project_review_perm path o) as (reports & o' & R & _).
  exists reports, o'. split; [exact R|].
  assert (X : path_exists path = true).
  { unfold isdir, path_exists in *. now destruct (lookup path). }
  assert (F : isfile path = false).
  { unfold isdir, isfile in *. now destruct (lookup path) as [[| |]|]. }
  assert (S : review_suite path o
              = (Ok tt,
                 (o' ++ (newline
                           ++ "Project review complete. Reports generated for the following files:")%string
                     :: map (fun entry => (" - " ++ fst entry)%string) reports)%list)).
  { unfold review_suite. rewrite F, D. unfold mbind at 1. rewrite R.
    unfold mbind at 1. cbn [print].
    rewrite (print_each reports (ret tt) _ _ eq_refl).
    now rewrite <- app_assoc. }
  unfold main. rewrite X. cbn [negb]. rewrite S. cbn. auto.
Qed.


End MoreScript.

(** *** The properties above on inputs *)

Lemma run_project_review_nothing_found_witness :
  run_project_review (E := demo_env flaky_review (fun i => i)) "buggy.py"
    ["printed before"]
  = (Ok [], ["printed before"]).
Proof.
  apply (@run_project_review_nothing_found (demo_env flaky_review (fun i => i))
           "buggy.py" ["printed before"]).
  reflexivity.
Defined.

Lemma run_project_review_in_order_witness :
  run_project_review (E := demo_env flaky_review (fun _ => 0)) "proj" []
  = (Ok (succeeded (E := demo_env flaky_review (fun _ => 0))
           (scan_directory (E := demo_env flaky_review (fun _ => 0)) "proj")),
     error_lines (E := demo_env flaky_review (fun _ => 0))
       (scan_directory (E := demo_env flaky_review (fun _ => 0)) "proj")).
Proof.
  apply (@run_project_review_in_order (demo_env flaky_review (fun _ => 0))
           (fun _ => eq_refl) "proj" []).
Defined.

Lemma scan_directory_not_a_directory_witness :
  scan_directory (E := demo_env flaky_review (fun _ => 0)) "buggy.py" = [].
Proof.
  apply (@scan_directory_not_a_directory (demo_env flaky_review (fun _ => 0))
           "buggy.py").
  discriminate.
Defined.

Lemma scan_directory_no_duplicates_witness :
  NoDup (scan_directory (E := demo_env flaky_review (fun _ => 0)) "proj").
Proof.
  apply (@scan_directory_no_duplicates (demo_env flaky_review (fun _ => 0))
           "proj" demo_tree); reflexivity.
Defined.

Lemma scan_directory_top_down_witness :
  scan_directory (E := demo_env flaky_review (fun _ => 0)) "proj"
  = (map (path_join "proj")
       (filter is_code_file
          (filenames [File "a.py"; File "b.txt"; Dir "sub" [File "c.go"]]))
       ++ flat_map (below "proj")
            [File "a.py"; File "b.txt"; Dir "sub" [File "c.go"]])%list.
Proof.
  apply (@scan_directory_top_down (demo_env flaky_review (fun _ => 0))
           "proj" "proj" [File "a.py"; File "b.txt"; Dir "sub" [File "c.go"]]).
  reflexivity.
Defined.

Lemma scan_directory_under_directory_witness :
  PyStr.startswith (dir_prefix "proj") "proj/sub/c.go" = true.
Proof.
  apply (@scan_directory_under_directory (demo_env flaky_review (fun _ => 0))
           "proj" demo_tree "proj/sub/c.go");
    [reflexivity | reflexivity | right; left; reflexivity].
Defined.

Lemma main_usage_witness :
  main (E := demo_env flaky_review (fun _ => 0)) ["review.py"] []
  = (Raise (mkExn (SystemExit 1) "1"),
     [" Usage: python examples/review.py <file_or_directory_path>";
      "Example: python examples/review.py test_samples/buggy_code.py"])
  /\ exit_status (fst (main (E := demo_env flaky_review (fun _ => 0))
                         ["review.py"] [])) = 1%Z.
Proof.
  apply (@main_usage (demo_env flaky_review (fun _ => 0)) ["review.py"] []).
  cbn. lia.
Defined.

Lemma main_invalid_path_witness :
  main (E := socket_env) ["review.py"; "run/agent.sock"] []
  = (Raise (mkExn (SystemExit 1) "1"),
     [" Invalid path. Please provide a file or directory."])
  /\ exit_status (fst (main (E := socket_env) ["review.py"; "run/agent.sock"] []))
     = 1%Z.
Proof.
  apply (@main_invalid_path socket_env "review.py" "run/agent.sock" "agent.sock"
           [] []).
  reflexivity.
Defined.

Lemma main_review_error_witness :
  main (E := demo_env failing_review (fun _ => 0)) ["review.py"; "buggy.py"] []
  = (Raise (mkExn (SystemExit 1) "1"),
     [newline ++ " Error during review: model unreachable"])
  /\ exit_status (fst (main (E := demo_env failing_review (fun _ => 0))
                         ["review.py"; "buggy.py"] [])) = 1%Z.
Proof.
  apply (@main_review_error (demo_env failing_review (fun _ => 0))
           "review.py" "buggy.py" [] [] []
           (mkExn (ExceptionSubclass "RuntimeError") "model unreachable"));
    reflexivity.
Defined.

Lemma main_directory_mode_witness :
  exists reports o',
    run_project_review (E := demo_env failing_review (fun i => i)) "proj" []
    = (Ok reports, o')
    /\ main (E := demo_env failing_review (fun i => i)) ["review.py"; "proj"] []
       = (Ok tt,
          (o' ++ (newline
                    ++ "Project review complete. Reports generated for the following files:")%string
              :: map (fun entry => (" - " ++ fst entry)%string) reports)%list)
    /\ exit_status (fst (main (E := demo_env failing_review (fun i => i))
                           ["review.py"; "proj"] [])) = 0%Z.
Proof.
  apply (@main_directory_mode (demo_env failing_review (fun i => i))
           "review.py" "proj" [] []).
  reflexivity.
Defined.

End ReviewMore.
